(** * geochemistrypy: the clustering workflows

    A shallow embedding of [src/geochemistrypy/model/clustering.py].

    The file wraps scikit-learn estimators in workflow classes.  Python
    values, the instance dictionary, the pandas feature table (held by
    reference) and the calls made to the plotting and persistence helpers
    are modelled explicitly; what scikit-learn, pandas' string conversion
    and the parent class [WorkflowBase] compute is not in the repository
    file and is taken as a parameter ([Externals]). *)

From Stdlib Require Import ZArith List String PrimInt63 PrimFloat Lia.
From Stdlib Require FloatAxioms SpecFloat FloatOps.
From stdpp Require Import base option list gmap strings pretty.

Set Warnings "-register-all,-inexact-float".

(** ** Python values *)

(** Heap addresses of DataFrame objects: a DataFrame is passed and stored
    by reference. *)
Definition loc := positive.

(** The scikit-learn estimator classes the module imports. *)
Inductive sk_class := KMeans | DBSCAN | AffinityPropagation.

(** Python values.  [VList] is a Python list.  It also carries the array
    data that the code only stores, hands on and assigns as a column (the
    ndarray of labels an estimator returns, a column read from the table),
    as the list of its entries: the module applies no operator of their own
    to those.  A NumPy array on which the code would compute, such as one
    passed for [components_num], is not among these values.
    [VEstimator c d] is an estimator object of class [c] and attribute
    dictionary [d].  An estimator is owned by the one workflow instance that
    built it, so it is kept as a value in that instance's dictionary and its
    in-place mutation by a [fit] that returns is a rebinding of the [model]
    attribute. *)
Inductive value :=
| VNone
| VBool (b : bool)
| VInt (z : Z)
| VFloat (f : float)
| VStr (s : string)
| VList (l : list value)
| VDict (d : gmap string value)
| VFrame (l : loc)
| VEstimator (c : sk_class) (d : gmap string value).

Inductive exn :=
| AttributeError (owner attr : string)
| KeyError (key : string)
| TypeError (msg : string)
| ValueError (msg : string).

Definition sk_name (c : sk_class) : string :=
  match c with
  | KMeans => "KMeans"
  | DBSCAN => "DBSCAN"
  | AffinityPropagation => "AffinityPropagation"
  end.

(** [type(v).__name__], as it appears in an AttributeError. *)
Definition type_name (v : value) : string :=
  match v with
  | VNone => "NoneType"
  | VBool _ => "bool"
  | VInt _ => "int"
  | VFloat _ => "float"
  | VStr _ => "str"
  | VList _ => "list"
  | VDict _ => "dict"
  | VFrame _ => "DataFrame"
  | VEstimator c _ => sk_name c
  end.

(** [o.a].  Only estimator objects carry the attributes this module reads
    ([labels_], [inertia_], [cluster_centers_]); on [None] and on the other
    builtin values the lookup raises AttributeError.  (Column access by
    attribute on a DataFrame is not modelled.) *)
Definition getattr (o : value) (a : string) : exn + value :=
  match o with
  | VEstimator c d =>
      match d !! a with
      | Some v => inr v
      | None => inl (AttributeError (sk_name c) a)
      end
  | _ => inl (AttributeError (type_name o) a)
  end.

(** [getattr(o, a, default)]: the default replaces the AttributeError. *)
Definition getattr_default (o : value) (a : string) (default : value) : value :=
  match getattr o a with
  | inr v => v
  | inl _ => default
  end.

(** The int literal [z] as a float (exact for the small literals the code
    compares with). *)
Fixpoint int_of_pos (p : positive) : int :=
  match p with
  | xH => 1%uint63
  | xO q => PrimInt63.mul 2%uint63 (int_of_pos q)
  | xI q => PrimInt63.add (PrimInt63.mul 2%uint63 (int_of_pos q)) 1%uint63
  end.

Definition float_of_Z (z : Z) : float :=
  match z with
  | Z0 => PrimFloat.zero
  | Zpos p => PrimFloat.of_uint63 (int_of_pos p)
  | Zneg p => PrimFloat.opp (PrimFloat.of_uint63 (int_of_pos p))
  end.

(** [if v > n] for an int literal [n], that is the comparison and the truth
    test of its result.  Numbers compare by value ([bool] is a subclass of
    [int], a float compares as IEEE 754 has it, so NaN is above nothing).
    A DataFrame compares cell by cell into another DataFrame, whose truth
    test raises ValueError (a cell that does not order against an int makes
    the comparison itself raise; the cells are not looked at here, only that
    the test raises).  [None], strings, lists, dicts and estimators do not
    order against an int. *)
Definition py_gt (v : value) (n : Z) : exn + bool :=
  match v with
  | VInt z => inr (n <? z)%Z
  | VBool b => inr (n <? Z.b2z b)%Z
  | VFloat f => inr (PrimFloat.ltb (float_of_Z n) f)
  | VFrame _ => inl (ValueError "The truth value of a DataFrame is ambiguous.")
  | _ => inl (TypeError "'>' not supported between instances")
  end.

(** [v == n] for an int literal [n], on a value for which [v > n] gave an
    answer or would raise in the same way: unequal types are just not
    equal. *)
Definition py_eq (v : value) (n : Z) : bool :=
  match v with
  | VInt z => (z =? n)%Z
  | VBool b => (Z.b2z b =? n)%Z
  | VFloat f => PrimFloat.eqb f (float_of_Z n)
  | _ => false
  end.

(** ** The feature table *)

(** A pandas DataFrame: the length of its index (the row count) and its
    columns in order, each a label and the column's cells.  Labels may
    repeat, as pandas allows. *)
Record frame := {
  index : nat;
  columns : list (string * list value)
}.

Definition has_column (k : string) (df : frame) : bool :=
  existsb (fun c => String.eqb c.1 k) (columns df).

(** Assignment to a label: every column carrying the label is overwritten
    in place; a label the table does not have is appended as a new last
    column. *)
Definition set_column (k : string) (col : list value)
    (cols : list (string * list value)) : list (string * list value) :=
  if existsb (fun c => String.eqb c.1 k) cols
  then map (fun c => if String.eqb c.1 k then (k, col) else c) cols
  else cols ++ [(k, col)].

(** pandas' [_ensure_valid_index]: a table with an empty index takes the
    index of a non-empty array assigned to it, its columns padded with NaN. *)
Definition _ensure_valid_index (df : frame) (n : nat) : frame :=
  if (index df =? 0)%nat && (0 <? n)%nat
  then {| index := n;
          columns := map (fun c => (c.1, replicate n (VFloat PrimFloat.nan)))
                         (columns df) |}
  else df.

(** [df[k] = v].  An array must have one entry per row (ValueError
    otherwise); any other value is broadcast to every row as a scalar. *)
Definition frame_setitem (df : frame) (k : string) (v : value) : exn + frame :=
  match v with
  | VList col =>
      let df' := _ensure_valid_index df (length col) in
      if (length col =? index df')%nat
      then inr {| index := index df';
                  columns := set_column k col (columns df') |}
      else inl (ValueError "Length of values does not match length of index")
  | _ =>
      inr {| index := index df;
             columns := set_column k (replicate (index df) v) (columns df) |}
  end.

(** [df[k]]: the column as an array, KeyError when no column has the label
    (several columns of that label come back together). *)
Definition frame_getitem (df : frame) (k : string) : exn + value :=
  match filter (fun c => String.eqb c.1 k = true) (columns df) with
  | [] => inl (KeyError k)
  | [c] => inr (VList c.2)
  | cs => inr (VList (map (fun c => VList c.2) cs))
  end.

(** ** Workflow instances, the world and its trace *)

(** A workflow class: its Python name and the class attributes the
    subclasses declare ([special_function] only where a class declares it). *)
Record class := {
  __name__ : string;
  name : string;
  special_function : option (list string)
}.

Definition common_function : list string :=
  ["Cluster Centers"; "Cluster Labels"].

(** An instance: its class and its attribute dictionary. *)
Record instance := {
  __class__ : class;
  __dict__ : gmap string value
}.

(** An argument as the callee sees it: a DataFrame reference comes with the
    table's content at the time of the call. *)
Inductive pyarg :=
| ByValue (v : value)
| ByRef (l : loc) (df : frame).

(** The calls that leave this module, in the order they are made. *)
Inductive event :=
| print (args : list pyarg)
| save_data (df : pyarg) (file_name path : string)
| save_fig (title path : string)
| plot_silhouette_diagram
    (data cluster_labels cluster_centers n_clusters algorithm_name : pyarg)
| scatter2d (data cluster_labels algorithm_name : pyarg)
| scatter3d
| dbscan_result_plot (X trained_model algorithm_name : pyarg).

Definition is_scatter (e : event) : bool :=
  match e with
  | scatter2d _ _ _ | scatter3d => true
  | _ => false
  end.

Definition scatter_calls (t : list event) : list event := filter is_scatter t.

Record state := {
  self : instance;
  frames : gmap loc frame;
  out : list event
}.

(** ** State and exception monad *)

Definition M (A : Type) : Type := state -> state * (exn + A).

Definition ret {A} (a : A) : M A := fun s => (s, inr a).

Definition raise {A} (e : exn) : M A := fun s => (s, inl e).

Definition bind {A B} (m : M A) (k : A -> M B) : M B :=
  fun s =>
    match m s with
    | (s', inr a) => k a s'
    | (s', inl e) => (s', inl e)
    end.

Declare Scope py_scope.
Delimit Scope py_scope with py.
Notation "'let*' x := m 'in' k" := (bind m (fun x => k))
  (at level 10, x name, m at level 100, k at level 200) : py_scope.
Notation "m ;; k" := (bind m (fun _ => k))
  (at level 100, k at level 200, right associativity) : py_scope.
Local Open Scope py_scope.

Definition lift {A} (r : exn + A) : M A := fun s => (s, r).

Definition emit (e : event) : M unit :=
  fun s => ({| self := self s; frames := frames s; out := out s ++ [e] |}, inr tt).

(** What the callee receives for [v] when the tables are [h]. *)
Definition snapshot (h : gmap loc frame) (v : value) : pyarg :=
  match v with
  | VFrame l =>
      match h !! l with
      | Some df => ByRef l df
      | None => ByValue v
      end
  | _ => ByValue v
  end.

Definition pass (v : value) : M pyarg :=
  fun s => (s, inr (snapshot (frames s) v)).

(** [print(v1, ..., vn)]. *)
Definition py_print (vs : list value) : M unit :=
  fun s => emit (print (map (snapshot (frames s)) vs)) s.

(** The attributes the classes of this file declare in their bodies.  Those
    a class inherits from [WorkflowBase] reach the instance through
    [WorkflowBase_init] below. *)
Definition class_attr (c : class) (a : string) : option value :=
  if String.eqb a "name" then Some (VStr (name c))
  else if String.eqb a "special_function"
       then (fun l => VList (map VStr l)) <$> special_function c
  else if String.eqb a "common_function"
       then Some (VList (map VStr common_function))
  else None.

(** [self.a]: the instance dictionary, which starts from what [WorkflowBase]
    provides, then the attributes of the class; AttributeError when neither
    has [a]. *)
Definition self_attr (a : string) : M value :=
  fun s =>
    match __dict__ (self s) !! a with
    | Some v => (s, inr v)
    | None =>
        match class_attr (__class__ (self s)) a with
        | Some v => (s, inr v)
        | None => (s, inl (AttributeError (__name__ (__class__ (self s))) a))
        end
    end.

(** [self.a = v]. *)
Definition set_self_attr (a : string) (v : value) : M unit :=
  fun s =>
    ({| self := {| __class__ := __class__ (self s);
                   __dict__ := <[a := v]> (__dict__ (self s)) |};
        frames := frames s; out := out s |}, inr tt).

(** [X[k] = v] for the object [X]: only a DataFrame supports it here. *)
Definition setitem (X : value) (k : string) (v : value) : M unit :=
  fun s =>
    match X with
    | VFrame l =>
        match frames s !! l with
        | Some df =>
            match frame_setitem df k v with
            | inr df' =>
                ({| self := self s; frames := <[l := df']> (frames s);
                    out := out s |}, inr tt)
            | inl e => (s, inl e)
            end
        | None => (s, inl (TypeError "object does not support item assignment"))
        end
    | _ => (s, inl (TypeError "object does not support item assignment"))
    end.

(** [X[k]]. *)
Definition getitem (X : value) (k : string) : M value :=
  fun s =>
    match X with
    | VFrame l =>
        match frames s !! l with
        | Some df => (s, frame_getitem df k)
        | None => (s, inl (TypeError "object is not subscriptable"))
        end
    | _ => (s, inl (TypeError "object is not subscriptable"))
    end.

(** [kwargs[k]]. *)
Definition kwargs_get (kwargs : gmap string value) (k : string) : M value :=
  match kwargs !! k with
  | Some v => ret v
  | None => raise (KeyError k)
  end.

(** ** What the module imports *)

(** The attributes scikit-learn documents on a fitted estimator.  [labels_]
    is an array; the rest is opaque here.  The tables of this model label
    their columns with strings, so [feature_names_in_] is always set. *)
Record fitted := {
  labels_ : list value;
  cluster_centers_ : value;
  inertia_ : value;
  n_iter_ : value;
  core_sample_indices_ : value;
  components_ : value;
  cluster_centers_indices_ : value;
  affinity_matrix_ : value;
  n_features_in_ : value;
  feature_names_in_ : value
}.

(** Which of them each estimator class sets in [fit]. *)
Definition fitted_attrs (c : sk_class) (r : fitted) : gmap string value :=
  match c with
  | KMeans =>
      {[ "cluster_centers_" := cluster_centers_ r;
         "labels_" := VList (labels_ r);
         "inertia_" := inertia_ r;
         "n_iter_" := n_iter_ r;
         "n_features_in_" := n_features_in_ r;
         "feature_names_in_" := feature_names_in_ r ]}
  | DBSCAN =>
      {[ "core_sample_indices_" := core_sample_indices_ r;
         "components_" := components_ r;
         "labels_" := VList (labels_ r);
         "n_features_in_" := n_features_in_ r;
         "feature_names_in_" := feature_names_in_ r ]}
  | AffinityPropagation =>
      {[ "cluster_centers_indices_" := cluster_centers_indices_ r;
         "cluster_centers_" := cluster_centers_ r;
         "labels_" := VList (labels_ r);
         "affinity_matrix_" := affinity_matrix_ r;
         "n_iter_" := n_iter_ r;
         "n_features_in_" := n_features_in_ r;
         "feature_names_in_" := feature_names_in_ r ]}
  end.

(** What lies outside the file.  [WorkflowBase_init] is what the parent
    class gives a new instance: the attributes [WorkflowBase.__init__] binds
    and the attributes [WorkflowBase] declares in its class body, under the
    names the classes of this file do not declare themselves; an attribute
    lookup on the instance finds either kind, and an assignment on the
    instance shadows both.  The rest is the two configured output paths of
    [global_variable], the numerical work of scikit-learn (fitting and the
    two cluster-quality metrics, each of which may raise) and [str()] of a
    value that is not a string. *)
Record Externals := {
  WorkflowBase_init : gmap string value;
  MODEL_OUTPUT_IMAGE_PATH : string;
  DATASET_OUTPUT_PATH : string;
  sk_fit : sk_class -> gmap string value -> frame -> exn + fitted;
  calinski_harabasz_score : pyarg -> value -> exn + value;
  silhouette_score : pyarg -> value -> exn + value;
  py_repr : value -> string
}.

(** [f"{v}"]. *)
Definition py_str (E : Externals) (v : value) : string :=
  match v with
  | VStr s => s
  | _ => py_repr E v
  end.

(** [EstimatorClass(k1=v1, ...)]: scikit-learn constructors store their
    keyword arguments as attributes and do nothing else. *)
Definition sk_new (c : sk_class) (kwargs : list (string * value)) : value :=
  VEstimator c (list_to_map kwargs).

(** [Class(...)]: a new empty instance of class [c] on which [init] runs. *)
Definition new (c : class) (init : M unit) : M unit :=
  fun s =>
    init {| self := {| __class__ := c; __dict__ := ∅ |};
            frames := frames s; out := out s |}.

(** ** ClusteringWorkflowBase *)

Module ClusteringWorkflowBase.
Section Methods.
Variable E : Externals.

(** [super().__init__()]: from here on the instance answers for what
    [WorkflowBase] provides. *)
Definition __init__ : M unit :=
  fun s =>
    ({| self := {| __class__ := __class__ (self s);
                   __dict__ := WorkflowBase_init E ∪ __dict__ (self s) |};
        frames := frames s; out := out s |}, inr tt).

(** [m.fit(X)] on the object [m]: an estimator computes its fitted
    attributes from the table [X] refers to; anything else has no [fit].
    The result is the estimator after a [fit] that returns.  A [fit] that
    raises may already have written on the estimator (scikit-learn records
    the feature names and their number while it validates the input, before
    the checks that can still fail); that is not represented, and no
    property below is about those attributes after a failed [fit]: what
    they use of such an estimator is [labels_], which [fit] assigns last. *)
Definition estimator_fit (m : value) (X : loc) : M value :=
  fun s =>
    match m with
    | VEstimator c d =>
        match frames s !! X with
        | Some df =>
            match sk_fit E c d df with
            | inr r => (s, inr (VEstimator c (fitted_attrs c r ∪ d)))
            | inl e => (s, inl e)
            end
        | None => (s, inl (TypeError "X is not a table"))
        end
    | _ => (s, inl (AttributeError (type_name m) "fit"))
    end.

Definition fit (X : loc) : M unit :=
  set_self_attr "X" (VFrame X) ;;
  let* m := self_attr "model" in
  let* m' := estimator_fit m X in
  set_self_attr "model" m'.

Definition no_centers : value :=
  VStr "This class don not have cluster_centers_".

Definition get_cluster_centers : M value :=
  py_print [VStr "-----* Clustering Centers *-----"] ;;
  let* m := self_attr "model" in
  py_print [getattr_default m "cluster_centers_" no_centers] ;;
  let* m := self_attr "model" in
  ret (getattr_default m "cluster_centers_" no_centers).

Definition get_labels : M unit :=
  py_print [VStr "-----* Clustering Labels *-----"] ;;
  let* m := self_attr "model" in
  let* labels := lift (getattr m "labels_") in
  let* X := self_attr "X" in
  setitem X "clustering result" labels ;;
  let* X := self_attr "X" in
  py_print [X] ;;
  let* X := self_attr "X" in
  let* naming := self_attr "naming" in
  let* df := pass X in
  emit (save_data df (py_str E naming) (DATASET_OUTPUT_PATH E)).

End Methods.
End ClusteringWorkflowBase.

(** ** KMeansClustering *)

Module KMeansClustering.

Definition cls : class :=
  {| __name__ := "KMeansClustering"; name := "KMeans";
     special_function := Some ["KMeans Score"] |}.

(** The constructor's arguments. *)
Record args := {
  n_clusters : value;
  init : value;
  n_init : value;
  max_iter : value;
  tol : value;
  verbose : value;
  random_state : value;
  copy_x : value;
  algorithm : value
}.

Definition defaults : args :=
  {| n_clusters := VInt 8; init := VStr "k-means++"; n_init := VInt 10;
     max_iter := VInt 300; tol := VFloat 1e-4; verbose := VInt 0;
     random_state := VNone; copy_x := VBool true; algorithm := VStr "auto" |}.

Section Methods.
Variable E : Externals.

Definition __init__ (a : args) : M unit :=
  ClusteringWorkflowBase.__init__ E ;;
  set_self_attr "n_clusters" (n_clusters a) ;;
  set_self_attr "init" (init a) ;;
  set_self_attr "max_iter" (max_iter a) ;;
  set_self_attr "tol" (tol a) ;;
  set_self_attr "n_init" (n_init a) ;;
  set_self_attr "verbose" (verbose a) ;;
  set_self_attr "random_state" (random_state a) ;;
  set_self_attr "copy_x" (copy_x a) ;;
  set_self_attr "algorithm" (algorithm a) ;;
  let* v1 := self_attr "n_clusters" in
  let* v2 := self_attr "init" in
  let* v3 := self_attr "n_init" in
  let* v4 := self_attr "max_iter" in
  let* v5 := self_attr "tol" in
  let* v6 := self_attr "verbose" in
  let* v7 := self_attr "random_state" in
  let* v8 := self_attr "copy_x" in
  let* v9 := self_attr "algorithm" in
  set_self_attr "model"
    (sk_new KMeans
       [("n_clusters", v1); ("init", v2); ("n_init", v3); ("max_iter", v4);
        ("tol", v5); ("verbose", v6); ("random_state", v7); ("copy_x", v8);
        ("algorithm", v9)]) ;;
  set_self_attr "naming" (VStr (name cls)).

Definition _get_scores : M unit :=
  py_print [VStr "-----* KMeans Scores *-----"] ;;
  let* m := self_attr "model" in
  let* inertia := lift (getattr m "inertia_") in
  py_print [VStr "Inertia Score: "; inertia] ;;
  let* X := self_attr "X" in
  let* m := self_attr "model" in
  let* labels := lift (getattr m "labels_") in
  let* data := pass X in
  let* ch := lift (calinski_harabasz_score E data labels) in
  py_print [VStr "Calinski Harabasz Score: "; ch] ;;
  let* X := self_attr "X" in
  let* m := self_attr "model" in
  let* labels := lift (getattr m "labels_") in
  let* data := pass X in
  let* sil := lift (silhouette_score E data labels) in
  py_print [VStr "Silhouette Score: "; sil].

Definition _plot_silhouette_diagram
    (data cluster_labels cluster_centers n_clusters algorithm_name : value)
    (store_path : string) : M unit :=
  py_print [VStr "-----* Silhouette Diagram *-----"] ;;
  let* a1 := pass data in
  let* a2 := pass cluster_labels in
  let* a3 := pass cluster_centers in
  let* a4 := pass n_clusters in
  let* a5 := pass algorithm_name in
  emit (plot_silhouette_diagram a1 a2 a3 a4 a5) ;;
  emit (save_fig ("Silhouette Diagram - " +:+ py_str E algorithm_name) store_path).

Definition _scatter2d (data cluster_labels algorithm_name : value)
    (store_path : string) : M unit :=
  py_print [VStr "-----* Bi-plot *-----"] ;;
  let* a1 := pass data in
  let* a2 := pass cluster_labels in
  let* a3 := pass algorithm_name in
  emit (scatter2d a1 a2 a3) ;;
  emit (save_fig ("Bi-plot - " +:+ py_str E algorithm_name) store_path).

Definition _scatter3d : M unit :=
  py_print [VStr "-----* Tri-plot *-----"] ;;
  emit scatter3d.

Definition special_components (kwargs : gmap string value) : M unit :=
  _get_scores ;;
  let* data := self_attr "X" in
  let* X := self_attr "X" in
  let* cluster_labels := getitem X "clustering result" in
  let* centers := ClusteringWorkflowBase.get_cluster_centers in
  let* n := self_attr "n_clusters" in
  let* naming := self_attr "naming" in
  _plot_silhouette_diagram data cluster_labels centers n naming
    (MODEL_OUTPUT_IMAGE_PATH E) ;;
  let* c := kwargs_get kwargs "components_num" in
  let* above := lift (py_gt c 3) in
  if above then _scatter3d
  else
    let* c := kwargs_get kwargs "components_num" in
    if py_eq c 3 then _scatter3d
    else
      let* c := kwargs_get kwargs "components_num" in
      if py_eq c 2 then
        let* data := self_attr "X" in
        let* X := self_attr "X" in
        let* cluster_labels := getitem X "clustering result" in
        let* naming := self_attr "naming" in
        _scatter2d data cluster_labels naming (MODEL_OUTPUT_IMAGE_PATH E)
      else ret tt.

(** [KMeansClustering(...)]. *)
Definition create (a : args) : M unit := new cls (__init__ a).

End Methods.
End KMeansClustering.

(** ** DBSCANClustering *)

Module DBSCANClustering.

Definition cls : class :=
  {| __name__ := "DBSCANClustering"; name := "DBSCAN";
     special_function := Some ["Virtualization of result in 2D graph"] |}.

Record args := {
  eps : value;
  min_samples : value;
  metric : value;
  metric_params : value;
  algorithm : value;
  leaf_size : value;
  p : value;
  n_jobs : value
}.

Definition defaults : args :=
  {| eps := VFloat 0.5; min_samples := VInt 5; metric := VStr "euclidean";
     metric_params := VNone; algorithm := VStr "auto"; leaf_size := VInt 30;
     p := VNone; n_jobs := VNone |}.

Section Methods.
Variable E : Externals.

Definition __init__ (a : args) : M unit :=
  ClusteringWorkflowBase.__init__ E ;;
  set_self_attr "eps" (eps a) ;;
  set_self_attr "min_samples" (min_samples a) ;;
  set_self_attr "metric" (metric a) ;;
  set_self_attr "metric_params" (metric_params a) ;;
  set_self_attr "algorithm" (algorithm a) ;;
  set_self_attr "leaf_size" (leaf_size a) ;;
  set_self_attr "p" (p a) ;;
  set_self_attr "n_jobs" (n_jobs a) ;;
  let* v1 := self_attr "eps" in
  let* v2 := self_attr "min_samples" in
  let* v3 := self_attr "metric" in
  let* v4 := self_attr "metric_params" in
  let* v5 := self_attr "algorithm" in
  let* v6 := self_attr "leaf_size" in
  let* v7 := self_attr "p" in
  let* v8 := self_attr "n_jobs" in
  set_self_attr "model"
    (sk_new DBSCAN
       [("eps", v1); ("min_samples", v2); ("metric", v3);
        ("metric_params", v4); ("algorithm", v5); ("leaf_size", v6);
        ("p", v7); ("n_jobs", v8)]) ;;
  set_self_attr "naming" (VStr (name cls)).

Definition clustering_result_plot (X trained_model algorithm_name : value)
    (store_path : string) : M unit :=
  py_print [VStr "-------** dbscan_clustering_result_2d_plot **----------"] ;;
  let* a1 := pass X in
  let* a2 := pass trained_model in
  let* a3 := pass algorithm_name in
  emit (dbscan_result_plot a1 a2 a3) ;;
  emit (save_fig ("Plot - " +:+ py_str E algorithm_name +:+ " - 2D") store_path).

Definition special_components (kwargs : gmap string value) : M unit :=
  let* X := self_attr "X" in
  let* m := self_attr "model" in
  let* naming := self_attr "naming" in
  clustering_result_plot X m naming (MODEL_OUTPUT_IMAGE_PATH E).

(** [DBSCANClustering(...)]. *)
Definition create (a : args) : M unit := new cls (__init__ a).

End Methods.
End DBSCANClustering.

(** ** AffinityPropagationClustering *)

Module AffinityPropagationClustering.

Definition cls : class :=
  {| __name__ := "AffinityPropagationClustering"; name := "AffinityPropagation";
     special_function := None |}.

Record args := {
  damping : value;
  max_iter : value;
  convergence_iter : value;
  copy : value;
  preference : value;
  affinity : value;
  verbose : value;
  random_state : value
}.

Definition defaults : args :=
  {| damping := VFloat 0.5; max_iter := VInt 200; convergence_iter := VInt 15;
     copy := VBool true; preference := VNone; affinity := VStr "euclidean";
     verbose := VBool false; random_state := VNone |}.

Section Methods.
Variable E : Externals.

Definition __init__ (a : args) : M unit :=
  ClusteringWorkflowBase.__init__ E ;;
  set_self_attr "damping" (damping a) ;;
  set_self_attr "max_iter" (max_iter a) ;;
  set_self_attr "convergence_iter" (convergence_iter a) ;;
  set_self_attr "copy" (copy a) ;;
  set_self_attr "verbose" (verbose a) ;;
  set_self_attr "preference" (preference a) ;;
  set_self_attr "affinity" (affinity a) ;;
  set_self_attr "random_state" (random_state a) ;;
  let* v1 := self_attr "damping" in
  let* v2 := self_attr "max_iter" in
  let* v3 := self_attr "convergence_iter" in
  let* v4 := self_attr "copy" in
  set_self_attr "model"
    (sk_new AffinityPropagation
       [("damping", v1); ("max_iter", v2); ("convergence_iter", v3);
        ("copy", v4); ("preference", VNone); ("affinity", VStr "euclidean");
        ("verbose", VBool false); ("random_state", VNone)]) ;;
  set_self_attr "naming" (VStr (name cls)).

(** [AffinityPropagationClustering(...)]. *)
Definition create (a : args) : M unit := new cls (__init__ a).

End Methods.
End AffinityPropagationClustering.

(** ** The classes that declare only a name *)

Definition MeanShiftClustering : class :=
  {| __name__ := "MeanShiftClustering"; name := "MeanShift";
     special_function := None |}.

Definition SpectralClustering : class :=
  {| __name__ := "SpectralClustering"; name := "Spectral";
     special_function := None |}.

Definition WardHierarchicalClustering : class :=
  {| __name__ := "WardHierarchicalClustering"; name := "WardHierarchical";
     special_function := None |}.

Definition AgglomerativeClustering : class :=
  {| __name__ := "AgglomerativeClustering"; name := "Agglomerative";
     special_function := None |}.

Definition OPTICSClustering : class :=
  {| __name__ := "OPTICSClustering"; name := "OPTICS";
     special_function := None |}.

Definition GaussianMixturesClustering : class :=
  {| __name__ := "GaussianMixturesClustering"; name := "GaussianMixtures";
     special_function := None |}.

Definition BIRCHClusteringClustering : class :=
  {| __name__ := "BIRCHClusteringClustering"; name := "BIRCHClustering";
     special_function := None |}.

Definition BisectingKMeansClustering : class :=
  {| __name__ := "BisectingKMeansClustering"; name := "BisectingKMeans";
     special_function := None |}.

(** They inherit the constructor of [ClusteringWorkflowBase]. *)
Definition create_placeholder (E : Externals) (c : class) : M unit :=
  new c (ClusteringWorkflowBase.__init__ E).

Definition placeholder_classes : list class :=
  [MeanShiftClustering; SpectralClustering; WardHierarchicalClustering;
   AgglomerativeClustering; OPTICSClustering; GaussianMixturesClustering;
   BIRCHClusteringClustering; BisectingKMeansClustering].

(** ** Reading a world *)

Definition run {A} (m : M A) (s : state) : state := (m s).1.

Definition result {A} (m : M A) (s : state) : exn + A := (m s).2.

(** The instance attribute [a] of [self]. *)
Definition attr (s : state) (a : string) : option value :=
  __dict__ (self s) !! a.

(** A fitted workflow instance: its estimator [m] carries one label per row
    of the table [fit] stored, and [naming] is the class's declared name, as
    the three constructors set it. *)
Definition fitted_instance (s : state) (X : loc) (df : frame) (m : value)
    (labels : list value) : Prop :=
  attr s "model" = Some m /\
  getattr m "labels_" = inr (VList labels) /\
  length labels = index df /\
  attr s "X" = Some (VFrame X) /\
  frames s !! X = Some df /\
  attr s "naming" = Some (VStr (name (__class__ (self s)))).

(** A fitted [KMeansClustering] instance after [get_labels]: the stored
    table has the labels column, read back as [cl]. *)
Definition labelled_instance (s : state) (X : loc) (df : frame) (cl : value)
    : Prop :=
  (exists m labels, fitted_instance s X df m labels) /\
  (exists k, attr s "n_clusters" = Some k) /\
  frame_getitem df "clustering result" = inr cl.

(** The first steps of [KMeansClustering.special_components] go through:
    the estimator is fitted and both metrics return a score for the stored
    table and the labels. *)
Definition scores_computed (E : Externals) (s : state) (X : loc) (df : frame)
    : Prop :=
  attr s "X" = Some (VFrame X) /\
  frames s !! X = Some df /\
  exists m inertia labels ch sil,
    attr s "model" = Some m /\
    getattr m "inertia_" = inr inertia /\
    getattr m "labels_" = inr labels /\
    calinski_harabasz_score E (ByRef X df) labels = inr ch /\
    silhouette_score E (ByRef X df) labels = inr sil.

(** The calls [KMeansClustering.special_components] makes after the scores
    and before it looks at [components_num]: the cluster centers are
    printed, then the silhouette diagram is drawn and saved. *)
Definition silhouette_calls (E : Externals) (h : gmap loc frame) (X : loc)
    (df : frame) (m cl k nm : value) : list event :=
  [print [ByValue (VStr "-----* Clustering Centers *-----")];
   print [snapshot h (getattr_default m "cluster_centers_"
                        ClusteringWorkflowBase.no_centers)];
   print [ByValue (VStr "-----* Silhouette Diagram *-----")];
   plot_silhouette_diagram (ByRef X df) (snapshot h cl)
     (snapshot h (getattr_default m "cluster_centers_"
                    ClusteringWorkflowBase.no_centers))
     (snapshot h k) (snapshot h nm);
   save_fig ("Silhouette Diagram - " +:+ py_str E nm)
            (MODEL_OUTPUT_IMAGE_PATH E)].

(** The calls of [_scatter3d] and of [_scatter2d]. *)
Definition tri_plot_calls : list event :=
  [print [ByValue (VStr "-----* Tri-plot *-----")]; scatter3d].

Definition bi_plot_calls (E : Externals) (h : gmap loc frame) (X : loc)
    (df : frame) (cl nm : value) : list event :=
  [print [ByValue (VStr "-----* Bi-plot *-----")];
   scatter2d (ByRef X df) (snapshot h cl) (snapshot h nm);
   save_fig ("Bi-plot - " +:+ py_str E nm) (MODEL_OUTPUT_IMAGE_PATH E)].

(** The world [s] after the further calls [t]. *)
Definition after (s : state) (t : list event) : state :=
  {| self := self s; frames := frames s; out := out s ++ t |}.

(** ** A concrete world for examples *)

Module Example.

(** scikit-learn's [check_number_of_labels]: a cluster-quality metric is
    defined for 2 to [n_samples - 1] distinct labels. *)
Definition check_number_of_labels (n_labels n_samples : nat) : bool :=
  (1 <? n_labels)%nat && (n_labels <? n_samples)%nat.

Definition label_ids (labels : list value) : list Z :=
  omap (fun v => match v with VInt z => Some z | _ => None end) labels.

(** A metric: ValueError on a degenerate labelling, as scikit-learn raises
    it, and a score otherwise. *)
Definition score (data : pyarg) (labels : value) : exn + value :=
  match data, labels with
  | ByRef _ df, VList l =>
      let n_labels := length (remove_dups (label_ids l)) in
      if check_number_of_labels n_labels (index df)
      then inr (VFloat 0.5)
      else inl (ValueError
                  ("Number of labels is " +:+ pretty n_labels +:+
                   ". Valid values are 2 to n_samples - 1 (inclusive)"))
  | _, _ => inl (TypeError "expected a table and an array of labels")
  end.

(** A stand-in for the estimators' numerical work: the rows are dealt in
    turn into the requested number of clusters, so that one cluster gives
    every row the label 0, as k-means does. *)
Definition fit_values (c : sk_class) (d : gmap string value) (df : frame)
    : fitted :=
  let k := match d !! "n_clusters" with
           | Some (VInt z) => Z.to_nat z
           | _ => 1%nat
           end in
  {| labels_ := map (fun i => VInt (Z.of_nat (i mod k))) (seq 0 (index df));
     cluster_centers_ := VList [];
     inertia_ := VFloat 0;
     n_iter_ := VInt 1;
     core_sample_indices_ := VList [];
     components_ := VList [];
     cluster_centers_indices_ := VList [];
     affinity_matrix_ := VList [];
     n_features_in_ := VInt (Z.of_nat (length (columns df)));
     feature_names_in_ := VList (map (fun c => VStr c.1) (columns df)) |}.

Definition fit_result (c : sk_class) (d : gmap string value) (df : frame)
    : exn + fitted :=
  inr (fit_values c d df).

Definition world : Externals :=
  {| WorkflowBase_init := ∅;
     MODEL_OUTPUT_IMAGE_PATH := "output/images";
     DATASET_OUTPUT_PATH := "output/data";
     sk_fit := fit_result;
     calinski_harabasz_score := score;
     silhouette_score := score;
     py_repr := fun v => match v with VNone => "None" | _ => type_name v end |}.

(** A table of four samples and two features, at address 1. *)
Definition samples : frame :=
  {| index := 4;
     columns := [("SiO2", [VFloat 49.5; VFloat 50.1; VFloat 71.2; VFloat 70.8]);
                 ("MgO", [VFloat 8.1; VFloat 7.9; VFloat 0.4; VFloat 0.6])] |}.

Definition s0 : state :=
  {| self := {| __class__ := MeanShiftClustering; __dict__ := ∅ |};
     frames := {[ 1%positive := samples ]};
     out := [] |}.

(** [KMeansClustering(n_clusters=k)], then [fit], then [get_labels]. *)
Definition kmeans_args (k : Z) : KMeansClustering.args :=
  {| KMeansClustering.n_clusters := VInt k;
     KMeansClustering.init := VStr "k-means++";
     KMeansClustering.n_init := VInt 10;
     KMeansClustering.max_iter := VInt 300;
     KMeansClustering.tol := VFloat 1e-4;
     KMeansClustering.verbose := VInt 0;
     KMeansClustering.random_state := VNone;
     KMeansClustering.copy_x := VBool true;
     KMeansClustering.algorithm := VStr "auto" |}.

Definition kmeans_built (k : Z) : state :=
  run (KMeansClustering.create world (kmeans_args k)) s0.

Definition kmeans_fitted (k : Z) : state :=
  run (ClusteringWorkflowBase.fit world 1%positive) (kmeans_built k).

Definition kmeans_labelled (k : Z) : state :=
  run (ClusteringWorkflowBase.get_labels world) (kmeans_fitted k).

Definition dbscan_built : state :=
  run (DBSCANClustering.create world DBSCANClustering.defaults) s0.

Definition dbscan_fitted : state :=
  run (ClusteringWorkflowBase.fit world 1%positive) dbscan_built.

(** The estimator an instance holds. *)
Definition model_of (s : state) : value :=
  default VNone (attr s "model").

(** The keyword arguments [KMeans] was built with. *)
Definition kmeans_params (k : Z) : gmap string value :=
  list_to_map
    [("n_clusters", VInt k); ("init", VStr "k-means++"); ("n_init", VInt 10);
     ("max_iter", VInt 300); ("tol", VFloat 1e-4); ("verbose", VInt 0);
     ("random_state", VNone); ("copy_x", VBool true);
     ("algorithm", VStr "auto")].

(** The table after [get_labels] on two clusters. *)
Definition samples_labelled : frame :=
  {| index := 4;
     columns := columns samples ++
                [("clustering result", [VInt 0; VInt 1; VInt 0; VInt 1])] |}.

End Example.

(** ** Further readings of a trace *)

Definition is_save_data (e : event) : bool :=
  match e with
  | save_data _ _ _ => true
  | _ => false
  end.

Definition save_data_calls (t : list event) : list event :=
  filter is_save_data t.

Definition is_save_fig (e : event) : bool :=
  match e with
  | save_fig _ _ => true
  | _ => false
  end.

Definition save_fig_calls (t : list event) : list event :=
  filter is_save_fig t.

(** The calls to a renderer. *)
Definition is_plot (e : event) : bool :=
  match e with
  | plot_silhouette_diagram _ _ _ _ _ | scatter2d _ _ _ | scatter3d
  | dbscan_result_plot _ _ _ => true
  | _ => false
  end.

Definition plot_calls (t : list event) : list event := filter is_plot t.

(** A computation that only reads: whether it returns or raises, it leaves
    the instance and every table as they were, and keeps the calls made so
    far. *)
Definition read_only {A} (m : M A) : Prop :=
  forall s,
    self (run m s) = self s /\
    frames (run m s) = frames s /\
    exists t, out (run m s) = out s ++ t.

(** The lines [KMeansClustering._get_scores] prints. *)
Definition score_lines (h : gmap loc frame) (inertia ch sil : value)
    : list event :=
  [print [ByValue (VStr "-----* KMeans Scores *-----")];
   print [ByValue (VStr "Inertia Score: "); snapshot h inertia];
   print [ByValue (VStr "Calinski Harabasz Score: "); snapshot h ch];
   print [ByValue (VStr "Silhouette Score: "); snapshot h sil]].

(** The keyword arguments each constructor hands to its estimator. *)
Definition KMeans_kwargs (a : KMeansClustering.args) : list (string * value) :=
  [("n_clusters", KMeansClustering.n_clusters a);
   ("init", KMeansClustering.init a);
   ("n_init", KMeansClustering.n_init a);
   ("max_iter", KMeansClustering.max_iter a);
   ("tol", KMeansClustering.tol a);
   ("verbose", KMeansClustering.verbose a);
   ("random_state", KMeansClustering.random_state a);
   ("copy_x", KMeansClustering.copy_x a);
   ("algorithm", KMeansClustering.algorithm a)].

Definition DBSCAN_kwargs (a : DBSCANClustering.args) : list (string * value) :=
  [("eps", DBSCANClustering.eps a);
   ("min_samples", DBSCANClustering.min_samples a);
   ("metric", DBSCANClustering.metric a);
   ("metric_params", DBSCANClustering.metric_params a);
   ("algorithm", DBSCANClustering.algorithm a);
   ("leaf_size", DBSCANClustering.leaf_size a);
   ("p", DBSCANClustering.p a);
   ("n_jobs", DBSCANClustering.n_jobs a)].

Definition AffinityPropagation_kwargs (a : AffinityPropagationClustering.args)
    : list (string * value) :=
  [("damping", AffinityPropagationClustering.damping a);
   ("max_iter", AffinityPropagationClustering.max_iter a);
   ("convergence_iter", AffinityPropagationClustering.convergence_iter a);
   ("copy", AffinityPropagationClustering.copy a);
   ("preference", VNone);
   ("affinity", VStr "euclidean");
   ("verbose", VBool false);
   ("random_state", VNone)].

(** The table [df] with the labels column appended. *)
Definition with_labels (df : frame) (labels : list value) : frame :=
  {| index := index df;
     columns := columns df ++ [("clustering result", labels)] |}.

(** ** Further examples *)

Module Scenario.

(** A table with four rows and no feature column, at address 2. *)
Definition no_features : frame := {| index := 4; columns := [] |}.

(** As [Example.fit_result], except that a table without features is
    refused, as scikit-learn's input validation does. *)
Definition strict_fit (c : sk_class) (d : gmap string value) (df : frame)
    : exn + fitted :=
  match columns df with
  | [] => inl (ValueError "Found array with 0 feature(s) while a minimum of 1 is required.")
  | _ => Example.fit_result c d df
  end.

Definition world : Externals :=
  {| WorkflowBase_init := WorkflowBase_init Example.world;
     MODEL_OUTPUT_IMAGE_PATH := MODEL_OUTPUT_IMAGE_PATH Example.world;
     DATASET_OUTPUT_PATH := DATASET_OUTPUT_PATH Example.world;
     sk_fit := strict_fit;
     calinski_harabasz_score := calinski_harabasz_score Example.world;
     silhouette_score := silhouette_score Example.world;
     py_repr := py_repr Example.world |}.

(** The samples at address 1, the table without features at address 2. *)
Definition s0 : state :=
  {| self := {| __class__ := MeanShiftClustering; __dict__ := ∅ |};
     frames := {[ 1%positive := Example.samples; 2%positive := no_features ]};
     out := [] |}.

(** [KMeansClustering(n_clusters=2)] fitted on the samples. *)
Definition fitted_on_samples : state :=
  run (ClusteringWorkflowBase.fit world 1%positive)
      (run (KMeansClustering.create world (Example.kmeans_args 2)) s0).

(** ... and then handed the table without features, which [fit] refuses. *)
Definition after_failed_fit : state :=
  run (ClusteringWorkflowBase.fit world 2%positive) fitted_on_samples.

(** A world in which [WorkflowBase.__init__] binds [model] to [None]. *)
Definition none_world : Externals :=
  {| WorkflowBase_init := {[ "model" := VNone ]};
     MODEL_OUTPUT_IMAGE_PATH := MODEL_OUTPUT_IMAGE_PATH Example.world;
     DATASET_OUTPUT_PATH := DATASET_OUTPUT_PATH Example.world;
     sk_fit := Example.fit_result;
     calinski_harabasz_score := calinski_harabasz_score Example.world;
     silhouette_score := silhouette_score Example.world;
     py_repr := py_repr Example.world |}.

(** The attributes of an estimator object. *)
Definition dict_of (v : value) : gmap string value :=
  match v with
  | VEstimator _ d => d
  | _ => ∅
  end.

End Scenario.

(** * Properties *)

(** A computation unfolds once it is given a world. *)
Arguments bind {A B} m k s /.
Arguments ret {A} a s /.
Arguments raise {A} e s /.
Arguments lift {A} r s /.
Arguments emit e s /.
Arguments snapshot h !v /.
Arguments pass v s /.
Arguments py_print vs s /.
Arguments self_attr a s /.
Arguments set_self_attr a v s /.
Arguments setitem X k v s /.
Arguments getitem X k s /.
Arguments new c init s /.
Arguments ClusteringWorkflowBase.__init__ E s /.
Arguments ClusteringWorkflowBase.estimator_fit E m X s /.

(** Runs a computation as far as the attribute lookups it meets can be
    decided from the assignments before them. *)
Ltac py_run :=
  repeat (progress (cbn -[insert union lookup list_to_map String.append
                          Z.ltb Z.eqb Z.leb];
                    rewrite ?lookup_insert_eq;
                    rewrite ?lookup_insert_ne by done)).

Section Constructors.
Variable E : Externals.

(** What [KMeansClustering(...)] leaves: every argument on the instance,
    the estimator built from them, and the algorithm's name. *)
Lemma KMeansClustering_create_run (a : KMeansClustering.args) (s : state) :
  KMeansClustering.create E a s =
  ({| self :=
        {| __class__ := KMeansClustering.cls;
           __dict__ :=
             <["naming" := VStr "KMeans"]>
             (<["model" := sk_new KMeans
                  [("n_clusters", KMeansClustering.n_clusters a);
                   ("init", KMeansClustering.init a);
                   ("n_init", KMeansClustering.n_init a);
                   ("max_iter", KMeansClustering.max_iter a);
                   ("tol", KMeansClustering.tol a);
                   ("verbose", KMeansClustering.verbose a);
                   ("random_state", KMeansClustering.random_state a);
                   ("copy_x", KMeansClustering.copy_x a);
                   ("algorithm", KMeansClustering.algorithm a)]]>
             (<["algorithm" := KMeansClustering.algorithm a]>
             (<["copy_x" := KMeansClustering.copy_x a]>
             (<["random_state" := KMeansClustering.random_state a]>
             (<["verbose" := KMeansClustering.verbose a]>
             (<["n_init" := KMeansClustering.n_init a]>
             (<["tol" := KMeansClustering.tol a]>
             (<["max_iter" := KMeansClustering.max_iter a]>
             (<["init" := KMeansClustering.init a]>
             (<["n_clusters" := KMeansClustering.n_clusters a]>
             (WorkflowBase_init E ∪ ∅))))))))))) |};
      frames := frames s; out := out s |}, inr tt).
Proof.
  unfold KMeansClustering.create, KMeansClustering.__init__.
  py_run. reflexivity.
Qed.

Lemma DBSCANClustering_create_run (a : DBSCANClustering.args) (s : state) :
  DBSCANClustering.create E a s =
  ({| self :=
        {| __class__ := DBSCANClustering.cls;
           __dict__ :=
             <["naming" := VStr "DBSCAN"]>
             (<["model" := sk_new DBSCAN
                  [("eps", DBSCANClustering.eps a);
                   ("min_samples", DBSCANClustering.min_samples a);
                   ("metric", DBSCANClustering.metric a);
                   ("metric_params", DBSCANClustering.metric_params a);
                   ("algorithm", DBSCANClustering.algorithm a);
                   ("leaf_size", DBSCANClustering.leaf_size a);
                   ("p", DBSCANClustering.p a);
                   ("n_jobs", DBSCANClustering.n_jobs a)]]>
             (<["n_jobs" := DBSCANClustering.n_jobs a]>
             (<["p" := DBSCANClustering.p a]>
             (<["leaf_size" := DBSCANClustering.leaf_size a]>
             (<["algorithm" := DBSCANClustering.algorithm a]>
             (<["metric_params" := DBSCANClustering.metric_params a]>
             (<["metric" := DBSCANClustering.metric a]>
             (<["min_samples" := DBSCANClustering.min_samples a]>
             (<["eps" := DBSCANClustering.eps a]>
             (WorkflowBase_init E ∪ ∅)))))))))) |};
      frames := frames s; out := out s |}, inr tt).
Proof.
  unfold DBSCANClustering.create, DBSCANClustering.__init__.
  py_run. reflexivity.
Qed.

Lemma AffinityPropagationClustering_create_run
    (a : AffinityPropagationClustering.args) (s : state) :
  AffinityPropagationClustering.create E a s =
  ({| self :=
        {| __class__ := AffinityPropagationClustering.cls;
           __dict__ :=
             <["naming" := VStr "AffinityPropagation"]>
             (<["model" := sk_new AffinityPropagation
                  [("damping", AffinityPropagationClustering.damping a);
                   ("max_iter", AffinityPropagationClustering.max_iter a);
                   ("convergence_iter",
                    AffinityPropagationClustering.convergence_iter a);
                   ("copy", AffinityPropagationClustering.copy a);
                   ("preference", VNone);
                   ("affinity", VStr "euclidean");
                   ("verbose", VBool false);
                   ("random_state", VNone)]]>
             (<["random_state" := AffinityPropagationClustering.random_state a]>
             (<["affinity" := AffinityPropagationClustering.affinity a]>
             (<["preference" := AffinityPropagationClustering.preference a]>
             (<["verbose" := AffinityPropagationClustering.verbose a]>
             (<["copy" := AffinityPropagationClustering.copy a]>
             (<["convergence_iter" :=
                  AffinityPropagationClustering.convergence_iter a]>
             (<["max_iter" := AffinityPropagationClustering.max_iter a]>
             (<["damping" := AffinityPropagationClustering.damping a]>
             (WorkflowBase_init E ∪ ∅)))))))))) |};
      frames := frames s; out := out s |}, inr tt).
Proof.
  unfold AffinityPropagationClustering.create,
    AffinityPropagationClustering.__init__.
  py_run. reflexivity.
Qed.

End Constructors.

(** ** Assignment to a column *)

Section Frames.

Implicit Types (cols : list (string * list value)) (col : list value).

Lemma set_column_fresh k col cols :
  existsb (fun c => String.eqb c.1 k) cols = false ->
  set_column k col cols = cols ++ [(k, col)].
Proof. unfold set_column. now intros ->. Qed.

Lemma set_column_length_fresh k col cols :
  existsb (fun c => String.eqb c.1 k) cols = false ->
  length (set_column k col cols) = S (length cols).
Proof.
  intros H. rewrite (set_column_fresh _ _ _ H), length_app. cbn. lia.
Qed.

(** Overwriting leaves the columns of other labels alone. *)
Lemma overwrite_other k col cols :
  existsb (fun c => String.eqb c.1 k) cols = false ->
  map (fun c => if String.eqb c.1 k then (k, col) else c) cols = cols.
Proof.
  induction cols as [|c cols IH]; cbn; [done|].
  destruct (String.eqb c.1 k) eqn:Hc; cbn; [done|].
  intros H. now rewrite IH.
Qed.

Lemma overwrite_twice k col cols :
  map (fun c => if String.eqb c.1 k then (k, col) else c)
      (map (fun c => if String.eqb c.1 k then (k, col) else c) cols) =
  map (fun c => if String.eqb c.1 k then (k, col) else c) cols.
Proof.
  induction cols as [|c cols IH]; cbn; [done|].
  rewrite IH. f_equal.
  destruct (String.eqb c.1 k) eqn:Hc; cbn.
  - now rewrite String.eqb_refl.
  - now rewrite Hc.
Qed.

Lemma overwrite_keeps_label k col cols :
  existsb (fun c => String.eqb c.1 k)
          (map (fun c => if String.eqb c.1 k then (k, col) else c) cols) =
  existsb (fun c => String.eqb c.1 k) cols.
Proof.
  induction cols as [|c cols IH]; cbn; [done|].
  rewrite IH. f_equal.
  destruct (String.eqb c.1 k) eqn:Hc; cbn; [apply String.eqb_refl | done].
Qed.

(** Assigning the same column a second time changes nothing. *)
Lemma set_column_idem k col cols :
  set_column k col (set_column k col cols) = set_column k col cols.
Proof.
  destruct (existsb (fun c => String.eqb c.1 k) cols) eqn:Hk.
  - unfold set_column. rewrite Hk, overwrite_keeps_label, Hk.
    apply overwrite_twice.
  - rewrite (set_column_fresh _ _ _ Hk). unfold set_column.
    rewrite existsb_app. cbn.
    rewrite String.eqb_refl, orb_true_r, map_app. cbn.
    rewrite String.eqb_refl. now rewrite overwrite_other.
Qed.

(** An array with one entry per row is stored as it is, and the index
    stays. *)
Lemma frame_setitem_array df k col :
  length col = index df ->
  frame_setitem df k (VList col) =
  inr {| index := index df; columns := set_column k col (columns df) |}.
Proof.
  intros Hlen. unfold frame_setitem, _ensure_valid_index.
  destruct ((index df =? 0)%nat && (0 <? length col)%nat) eqn:Hgrow.
  - apply andb_true_iff in Hgrow as [H0 Hpos].
    apply Nat.eqb_eq in H0. apply Nat.ltb_lt in Hpos. lia.
  - cbn. now rewrite Hlen, Nat.eqb_refl.
Qed.

Lemma frame_setitem_idem df k v df' :
  frame_setitem df k v = inr df' -> frame_setitem df' k v = inr df'.
Proof.
  intros H.
  destruct v as [ | b | z | f | str | col | d | l | c d ];
    try (injection H as <-; cbn; now rewrite set_column_idem).
  unfold frame_setitem in H.
  destruct (length col =? index (_ensure_valid_index df (length col)))%nat
    eqn:Hlen; [|done].
  injection H as <-. apply Nat.eqb_eq in Hlen.
  rewrite frame_setitem_array by done. cbn. now rewrite set_column_idem.
Qed.

End Frames.

(** Also rewrites with the facts at hand about the instance and the
    tables. *)
Ltac py_go :=
  repeat first
    [ progress py_run
    | match goal with H : ?l = _ |- context [?l] => rewrite H end ].

(** ** ClusteringWorkflowBase *)

Section Base.
Variable E : Externals.

Lemma fitted_attrs_labels c r d :
  (fitted_attrs c r ∪ d) !! "labels_" = Some (VList (labels_ r)).
Proof.
  apply lookup_union_Some_l. destruct c; cbn -[insert lookup];
    now rewrite ?lookup_insert_eq, ?lookup_insert_ne by done.
Qed.

Lemma fit_run s X c d df r :
  attr s "model" = Some (VEstimator c d) ->
  frames s !! X = Some df ->
  sk_fit E c d df = inr r ->
  ClusteringWorkflowBase.fit E X s =
  ({| self :=
        {| __class__ := __class__ (self s);
           __dict__ :=
             <["model" := VEstimator c (fitted_attrs c r ∪ d)]>
             (<["X" := VFrame X]> (__dict__ (self s))) |};
      frames := frames s; out := out s |}, inr tt).
Proof.
  unfold attr. intros Hm HX Hfit.
  unfold ClusteringWorkflowBase.fit. py_go. reflexivity.
Qed.

(** [fit] returns only if the instance holds an estimator whose own [fit]
    returned; the instance then holds the fitted estimator and the caller's
    reference, and no table was touched. *)
Lemma fit_inv s X s1 :
  ClusteringWorkflowBase.fit E X s = (s1, inr tt) ->
  exists c d df r,
    attr s "model" = Some (VEstimator c d) /\
    frames s !! X = Some df /\
    sk_fit E c d df = inr r /\
    attr s1 "model" = Some (VEstimator c (fitted_attrs c r ∪ d)) /\
    attr s1 "X" = Some (VFrame X) /\
    frames s1 = frames s.
Proof.
  intros Hfit. assert (Hfit' := Hfit). revert Hfit'.
  unfold attr, ClusteringWorkflowBase.fit. py_run.
  destruct (__dict__ (self s) !! "model") as [m|] eqn:Hm; py_go; [|done].
  destruct m as [ | | | | | | | | c d ]; try done.
  destruct (frames s !! X) as [df|] eqn:HX; py_go; [|done].
  destruct (sk_fit E c d df) as [e|r] eqn:Hr; py_go; [done|].
  intros _. exists c, d, df, r.
  rewrite (fit_run s X c d df r Hm HX Hr) in Hfit. injection Hfit as <-.
  cbn -[insert lookup union].
  now rewrite lookup_insert_eq, lookup_insert_ne, lookup_insert_eq by done.
Qed.

Lemma get_labels_run s m v X df df' nm :
  attr s "model" = Some m ->
  getattr m "labels_" = inr v ->
  attr s "X" = Some (VFrame X) ->
  frames s !! X = Some df ->
  frame_setitem df "clustering result" v = inr df' ->
  attr s "naming" = Some nm ->
  ClusteringWorkflowBase.get_labels E s =
  ({| self := self s;
      frames := <[X := df']> (frames s);
      out := out s ++
             [print [ByValue (VStr "-----* Clustering Labels *-----")];
              print [ByRef X df'];
              save_data (ByRef X df') (py_str E nm) (DATASET_OUTPUT_PATH E)] |},
   inr tt).
Proof.
  unfold attr. intros Hm Hl HX Hdf Hset Hnm.
  unfold ClusteringWorkflowBase.get_labels. py_go.
  rewrite <- !app_assoc. reflexivity.
Qed.

(** [get_labels] returns only from a world in which every step of it goes
    through. *)
Lemma get_labels_inv s s1 :
  ClusteringWorkflowBase.get_labels E s = (s1, inr tt) ->
  exists m v X df df' nm,
    attr s "model" = Some m /\
    getattr m "labels_" = inr v /\
    attr s "X" = Some (VFrame X) /\
    frames s !! X = Some df /\
    frame_setitem df "clustering result" v = inr df' /\
    attr s "naming" = Some nm.
Proof.
  unfold attr, ClusteringWorkflowBase.get_labels. py_run.
  destruct (__dict__ (self s) !! "model") as [m|] eqn:Hm; py_go; [|done].
  destruct (getattr m "labels_") as [e|v] eqn:Hl; py_go; [done|].
  destruct (__dict__ (self s) !! "X") as [Xv|] eqn:HX; py_go; [|done].
  destruct Xv as [ | | | | | | | X | ]; try done.
  destruct (frames s !! X) as [df|] eqn:Hdf; py_go; [|done].
  destruct (frame_setitem df "clustering result" v) as [e|df'] eqn:Hset;
    py_go; [done|].
  destruct (__dict__ (self s) !! "naming") as [nm|] eqn:Hnm; py_go; [|done].
  intros _. now exists m, v, X, df, df', nm.
Qed.

End Base.

Section BaseClaims.
Variable E : Externals.

(** C3. [get_cluster_centers] returns the estimator's [cluster_centers_]
    when the estimator has that attribute and the placeholder string
    otherwise, never raising; a [DBSCANClustering] instance on which [fit]
    returned gets the placeholder string. *)
Theorem get_cluster_centers_or_placeholder :
  (forall s m, attr s "model" = Some m ->
     (forall centers, getattr m "cluster_centers_" = inr centers ->
        result ClusteringWorkflowBase.get_cluster_centers s = inr centers) /\
     (forall e, getattr m "cluster_centers_" = inl e ->
        result ClusteringWorkflowBase.get_cluster_centers s =
        inr ClusteringWorkflowBase.no_centers)) /\
  (forall s a X,
     result (ClusteringWorkflowBase.fit E X)
            (run (DBSCANClustering.create E a) s) = inr tt ->
     result ClusteringWorkflowBase.get_cluster_centers
            (run (ClusteringWorkflowBase.fit E X)
                 (run (DBSCANClustering.create E a) s)) =
     inr ClusteringWorkflowBase.no_centers).
Proof.
  assert (Hgen : forall s m, attr s "model" = Some m ->
            result ClusteringWorkflowBase.get_cluster_centers s =
            inr (getattr_default m "cluster_centers_"
                   ClusteringWorkflowBase.no_centers)).
  { unfold attr, result, ClusteringWorkflowBase.get_cluster_centers.
    intros s m Hm. py_go. reflexivity. }
  split.
  - intros s m Hm. rewrite (Hgen s m Hm). unfold getattr_default.
    split; [intros centers -> | intros e ->]; reflexivity.
  - intros s a X. unfold result, run.
    rewrite DBSCANClustering_create_run. cbn [fst].
    set (s1 := {| self := _ |}).
    destruct (ClusteringWorkflowBase.fit E X s1) as [s2 [e|[]]] eqn:Hfit;
      cbn [fst snd]; [done|intros _].
    destruct (fit_inv E _ _ _ Hfit)
      as (c & d & df & r & Hm & _ & _ & Hm2 & _ & _).
    subst s1. unfold attr in Hm. cbn -[insert union lookup list_to_map] in Hm.
    rewrite lookup_insert_ne, lookup_insert_eq in Hm by done.
    injection Hm as <- <-.
    apply (Hgen s2) in Hm2. unfold result in Hm2. rewrite Hm2.
    unfold getattr_default, getattr.
    rewrite (proj2 (lookup_union_None _ _ _)); [done|].
    split; cbn -[insert lookup];
      now rewrite ?lookup_insert_ne, ?lookup_empty by done.
Qed.

(** C4. On a fitted instance whose table has no "clustering result" column,
    [get_labels] returns, keeps the row count, appends exactly one column,
    named "clustering result" and holding the estimator's labels, and saves
    the augmented table under the class's declared name. *)
Theorem get_labels_appends_result_column s X df m labels :
  fitted_instance s X df m labels ->
  has_column "clustering result" df = false ->
  exists df',
    ClusteringWorkflowBase.get_labels E s =
      ({| self := self s;
          frames := <[X := df']> (frames s);
          out := out s ++
                 [print [ByValue (VStr "-----* Clustering Labels *-----")];
                  print [ByRef X df'];
                  save_data (ByRef X df') (name (__class__ (self s)))
                            (DATASET_OUTPUT_PATH E)] |}, inr tt) /\
    index df' = index df /\
    columns df' = columns df ++ [("clustering result", labels)] /\
    length (columns df') = S (length (columns df)).
Proof.
  intros (Hm & Hl & Hlen & HX & Hdf & Hnm) Hnew.
  exists {| index := index df;
            columns := set_column "clustering result" labels (columns df) |}.
  split; [|cbn; split; [done|split]].
  - now rewrite (get_labels_run E s m (VList labels) X df _
                   (VStr (name (__class__ (self s)))) Hm Hl HX Hdf
                   (frame_setitem_array _ _ _ Hlen) Hnm).
  - now apply set_column_fresh.
  - now apply set_column_length_fresh.
Qed.

(** C5. On an instance of any of the eight classes that declare only a
    name, to which [WorkflowBase.__init__] assigned no estimator, [fit]
    raises AttributeError: it does not return. *)
Theorem placeholder_fit_raises c s X :
  c ∈ placeholder_classes ->
  (forall k d, WorkflowBase_init E !! "model" <> Some (VEstimator k d)) ->
  result (ClusteringWorkflowBase.fit E X) (run (create_placeholder E c) s) =
  inl (match WorkflowBase_init E !! "model" with
       | None => AttributeError (__name__ c) "model"
       | Some m => AttributeError (type_name m) "fit"
       end).
Proof.
  intros _ Hbase. unfold result, run, create_placeholder.
  unfold ClusteringWorkflowBase.fit. py_run.
  rewrite (right_id_L ∅ (∪)).
  destruct (WorkflowBase_init E !! "model") as [m|] eqn:Hm; py_run;
    [|reflexivity].
  destruct m as [ | | | | | | | | k d ]; py_run; try reflexivity.
  now destruct (Hbase k d).
Qed.

(** C8. [fit] binds [self.X] to the caller's table itself: no table is
    copied, and after [get_labels] the "clustering result" column is on the
    table at the address the caller passed. *)
Theorem fit_keeps_callers_table s X df c d r nm :
  attr s "model" = Some (VEstimator c d) ->
  attr s "naming" = Some nm ->
  frames s !! X = Some df ->
  sk_fit E c d df = inr r ->
  length (labels_ r) = index df ->
  result (ClusteringWorkflowBase.fit E X) s = inr tt /\
  attr (run (ClusteringWorkflowBase.fit E X) s) "X" = Some (VFrame X) /\
  frames (run (ClusteringWorkflowBase.fit E X) s) = frames s /\
  result (ClusteringWorkflowBase.get_labels E)
         (run (ClusteringWorkflowBase.fit E X) s) = inr tt /\
  frames (run (ClusteringWorkflowBase.get_labels E)
              (run (ClusteringWorkflowBase.fit E X) s)) =
    <[X := {| index := index df;
              columns := set_column "clustering result" (labels_ r)
                                    (columns df) |}]> (frames s).
Proof.
  intros Hm Hnm HX Hr Hlen. unfold result, run.
  rewrite (fit_run E s X c d df r Hm HX Hr). cbn [fst snd].
  set (s1 := {| self := _ |}).
  assert (H1 : attr s1 "X" = Some (VFrame X)).
  { unfold attr. cbn -[insert lookup union].
    now rewrite lookup_insert_ne, lookup_insert_eq by done. }
  assert (H2 : attr s1 "model" = Some (VEstimator c (fitted_attrs c r ∪ d))).
  { unfold attr. cbn -[insert lookup union]. now rewrite lookup_insert_eq. }
  assert (H3 : attr s1 "naming" = Some nm).
  { unfold attr. cbn -[insert lookup union].
    now rewrite !lookup_insert_ne by done. }
  rewrite (get_labels_run E s1 _ (VList (labels_ r)) X df
             {| index := index df;
                columns := set_column "clustering result" (labels_ r)
                                      (columns df) |} nm H2);
    [ done
    | unfold getattr; now rewrite fitted_attrs_labels
    | done | done
    | now apply frame_setitem_array
    | done ].
Qed.

(** C9. Once [get_labels] has returned, calling it again returns as well and
    leaves every table, and the instance, as the first call left them. *)
Theorem get_labels_idempotent s s1 :
  ClusteringWorkflowBase.get_labels E s = (s1, inr tt) ->
  exists s2,
    ClusteringWorkflowBase.get_labels E s1 = (s2, inr tt) /\
    frames s2 = frames s1 /\
    self s2 = self s1.
Proof.
  intros Hrun.
  destruct (get_labels_inv E s s1 Hrun)
    as (m & v & X & df & df' & nm & Hm & Hl & HX & Hdf & Hset & Hnm).
  rewrite (get_labels_run E s m v X df df' nm Hm Hl HX Hdf Hset Hnm) in Hrun.
  injection Hrun as <-.
  eexists. split.
  - apply (get_labels_run E _ m v X df' df' nm); try done.
    + cbn. apply lookup_insert_eq.
    + now apply (frame_setitem_idem df).
  - cbn. split; [apply insert_insert_eq | done].
Qed.

End BaseClaims.

(** ** The constructors *)

Section ConstructorClaims.
Variable E : Externals.

(** C1. [AffinityPropagationClustering(...)] builds its estimator with
    [preference=None], [affinity="euclidean"], [verbose=False] and
    [random_state=None] whatever the caller passed for these four, although
    the caller's values are stored on the instance; [damping], [max_iter],
    [convergence_iter] and [copy] reach the estimator as passed.  Two calls
    that differ only in the four therefore build the same estimator. *)
Theorem affinity_propagation_fixes_four_parameters
    (a : AffinityPropagationClustering.args) (s : state) :
  result (AffinityPropagationClustering.create E a) s = inr tt /\
  attr (run (AffinityPropagationClustering.create E a) s) "model" =
    Some (sk_new AffinityPropagation
            [("damping", AffinityPropagationClustering.damping a);
             ("max_iter", AffinityPropagationClustering.max_iter a);
             ("convergence_iter",
              AffinityPropagationClustering.convergence_iter a);
             ("copy", AffinityPropagationClustering.copy a);
             ("preference", VNone);
             ("affinity", VStr "euclidean");
             ("verbose", VBool false);
             ("random_state", VNone)]) /\
  attr (run (AffinityPropagationClustering.create E a) s) "preference" =
    Some (AffinityPropagationClustering.preference a) /\
  attr (run (AffinityPropagationClustering.create E a) s) "affinity" =
    Some (AffinityPropagationClustering.affinity a) /\
  attr (run (AffinityPropagationClustering.create E a) s) "verbose" =
    Some (AffinityPropagationClustering.verbose a) /\
  attr (run (AffinityPropagationClustering.create E a) s) "random_state" =
    Some (AffinityPropagationClustering.random_state a) /\
  (forall preference' affinity' verbose' random_state',
     attr (run (AffinityPropagationClustering.create E
                  {| AffinityPropagationClustering.damping :=
                       AffinityPropagationClustering.damping a;
                     AffinityPropagationClustering.max_iter :=
                       AffinityPropagationClustering.max_iter a;
                     AffinityPropagationClustering.convergence_iter :=
                       AffinityPropagationClustering.convergence_iter a;
                     AffinityPropagationClustering.copy :=
                       AffinityPropagationClustering.copy a;
                     AffinityPropagationClustering.preference := preference';
                     AffinityPropagationClustering.affinity := affinity';
                     AffinityPropagationClustering.verbose := verbose';
                     AffinityPropagationClustering.random_state :=
                       random_state' |}) s) "model" =
     attr (run (AffinityPropagationClustering.create E a) s) "model").
Proof.
  unfold result, run, attr.
  repeat split; intros;
    rewrite ?AffinityPropagationClustering_create_run;
    now py_run.
Qed.

(** C6. [KMeansClustering(...)] and [DBSCANClustering(...)] build their
    estimator from the constructor's arguments, each under its own keyword
    and unchanged. *)
Theorem hyperparameters_forwarded_unchanged
    (a : KMeansClustering.args) (b : DBSCANClustering.args) (s : state) :
  (result (KMeansClustering.create E a) s = inr tt /\
   attr (run (KMeansClustering.create E a) s) "model" =
     Some (sk_new KMeans
             [("n_clusters", KMeansClustering.n_clusters a);
              ("init", KMeansClustering.init a);
              ("n_init", KMeansClustering.n_init a);
              ("max_iter", KMeansClustering.max_iter a);
              ("tol", KMeansClustering.tol a);
              ("verbose", KMeansClustering.verbose a);
              ("random_state", KMeansClustering.random_state a);
              ("copy_x", KMeansClustering.copy_x a);
              ("algorithm", KMeansClustering.algorithm a)])) /\
  (result (DBSCANClustering.create E b) s = inr tt /\
   attr (run (DBSCANClustering.create E b) s) "model" =
     Some (sk_new DBSCAN
             [("eps", DBSCANClustering.eps b);
              ("min_samples", DBSCANClustering.min_samples b);
              ("metric", DBSCANClustering.metric b);
              ("metric_params", DBSCANClustering.metric_params b);
              ("algorithm", DBSCANClustering.algorithm b);
              ("leaf_size", DBSCANClustering.leaf_size b);
              ("p", DBSCANClustering.p b);
              ("n_jobs", DBSCANClustering.n_jobs b)])).
Proof.
  unfold result, run, attr.
  rewrite KMeansClustering_create_run, DBSCANClustering_create_run.
  now py_run.
Qed.

End ConstructorClaims.

(** ** DBSCANClustering *)

Section DBSCANClaims.
Variable E : Externals.

(** C7. On a fitted [DBSCANClustering] instance, [special_components]
    returns after exactly three calls, whatever its keyword arguments: the
    banner, the DBSCAN result renderer on the stored table and estimator, and
    one [save_fig] of the 2D plot.  No metric is evaluated and nothing
    depends on [kwargs]. *)
Theorem dbscan_special_components_one_plot s X df m labels kwargs :
  fitted_instance s X df m labels ->
  __class__ (self s) = DBSCANClustering.cls ->
  DBSCANClustering.special_components E kwargs s =
  ({| self := self s;
      frames := frames s;
      out := out s ++
        [print [ByValue
           (VStr "-------** dbscan_clustering_result_2d_plot **----------")];
         dbscan_result_plot (ByRef X df) (snapshot (frames s) m)
                            (ByValue (VStr "DBSCAN"));
         save_fig "Plot - DBSCAN - 2D" (MODEL_OUTPUT_IMAGE_PATH E)] |},
   inr tt).
Proof.
  intros (Hm & _ & _ & HX & Hdf & Hnm) Hcls. unfold attr in *.
  rewrite Hcls in Hnm. cbn in Hnm.
  unfold DBSCANClustering.special_components,
    DBSCANClustering.clustering_result_plot.
  py_go. rewrite <- !app_assoc. reflexivity.
Qed.

End DBSCANClaims.

(** ** KMeansClustering *)

Section KMeansClaims.
Variable E : Externals.

Lemma frame_getitem_missing df k :
  has_column k df = false -> frame_getitem df k = inl (KeyError k).
Proof.
  unfold has_column, frame_getitem. intros H.
  replace (filter (fun c => String.eqb c.1 k = true) (columns df))
    with (@nil (string * list value)); [done|].
  symmetry. induction (columns df) as [|c cols IH]; [done|].
  cbn in H. apply orb_false_iff in H as [Hc Hcols].
  rewrite filter_cons_False by (rewrite Hc; discriminate). now apply IH.
Qed.

Lemma frame_getitem_present df k :
  has_column k df = true -> exists v, frame_getitem df k = inr v.
Proof.
  unfold has_column, frame_getitem. intros H.
  assert (Hne : filter (fun c => String.eqb c.1 k = true) (columns df) <> []).
  { induction (columns df) as [|c cols IH]; [done|].
    cbn in H. destruct (String.eqb c.1 k) eqn:Hc.
    - now rewrite filter_cons_True.
    - rewrite filter_cons_False by (rewrite Hc; discriminate). now apply IH. }
  destruct (filter _ (columns df)) as [|c [|c' cs]]; [done| |]; eauto.
Qed.

(** The scores are printed, four lines in all. *)
Lemma _get_scores_run s X df :
  scores_computed E s X df ->
  exists lines,
    KMeansClustering._get_scores E s =
    ({| self := self s; frames := frames s; out := out s ++ lines |}, inr tt) /\
    scatter_calls lines = [].
Proof.
  intros (HX & Hdf & m & inertia & labels & ch & sil
          & Hm & Hi & Hl & Hch & Hsil).
  unfold attr in *. unfold KMeansClustering._get_scores.
  eexists. split.
  - py_go. rewrite <- !app_assoc. cbn [app]. reflexivity.
  - reflexivity.
Qed.

Arguments KMeansClustering._get_scores : simpl never.

Lemma scatter_calls_app t1 t2 :
  scatter_calls (t1 ++ t2) = scatter_calls t1 ++ scatter_calls t2.
Proof. apply filter_app. Qed.

(** What [special_components] does once the scores are computed and the
    labels column is there: the silhouette diagram, then a choice on
    [components_num] alone. *)
Lemma special_components_run s X df m cl k nm :
  scores_computed E s X df ->
  attr s "model" = Some m ->
  attr s "n_clusters" = Some k ->
  attr s "naming" = Some nm ->
  frame_getitem df "clustering result" = inr cl ->
  exists common,
    scatter_calls common = [] /\
    forall kwargs,
      KMeansClustering.special_components E kwargs s =
      match kwargs !! "components_num" with
      | None => (after s common, inl (KeyError "components_num"))
      | Some c =>
          match py_gt c 3 with
          | inl e => (after s common, inl e)
          | inr true => (after s (common ++ tri_plot_calls), inr tt)
          | inr false =>
              if py_eq c 3
              then (after s (common ++ tri_plot_calls), inr tt)
              else if py_eq c 2
              then (after s (common ++
                               bi_plot_calls E (frames s) X df cl nm), inr tt)
              else (after s common, inr tt)
          end
      end.
Proof.
  intros Hsc Hm' Hk Hnm Hcl.
  destruct (_get_scores_run s X df Hsc) as (lines & Hrun & Hlines).
  destruct Hsc as (HX & Hdf & m0 & inertia & labels & ch & sil
                   & Hm & Hi & Hl & Hch & Hsil).
  rewrite Hm' in Hm. injection Hm as <-.
  exists (lines ++ silhouette_calls E (frames s) X df m cl k nm).
  split.
  { rewrite scatter_calls_app, Hlines. reflexivity. }
  intros kwargs. unfold attr, after in *.
  unfold KMeansClustering.special_components,
    ClusteringWorkflowBase.get_cluster_centers,
    KMeansClustering._plot_silhouette_diagram, kwargs_get.
  py_go.
  destruct (kwargs !! "components_num") as [c|]; py_go.
  2: { rewrite <- !app_assoc. reflexivity. }
  destruct (py_gt c 3) as [e|[]]; py_go.
  - rewrite <- !app_assoc. reflexivity.
  - unfold KMeansClustering._scatter3d. py_go.
    rewrite <- !app_assoc. reflexivity.
  - destruct (py_eq c 3); py_go.
    + unfold KMeansClustering._scatter3d. py_go.
      rewrite <- !app_assoc. reflexivity.
    + destruct (py_eq c 2); py_go.
      * unfold KMeansClustering._scatter2d. py_go.
        rewrite <- !app_assoc. reflexivity.
      * rewrite <- !app_assoc. reflexivity.
Qed.









(** C10, as amended.  Provided the score computation that opens
    [special_components] goes through: without the "clustering result"
    column the call raises KeyError on that column, whatever the keyword
    arguments; with the column but without [components_num] it raises
    KeyError on [components_num]. *)
Theorem kmeans_special_components_key_errors s X df kwargs :
  scores_computed E s X df ->
  (has_column "clustering result" df = false ->
   result (KMeansClustering.special_components E kwargs) s =
   inl (KeyError "clustering result")) /\
  (has_column "clustering result" df = true ->
   (exists k, attr s "n_clusters" = Some k) ->
   (exists nm, attr s "naming" = Some nm) ->
   kwargs !! "components_num" = None ->
   result (KMeansClustering.special_components E kwargs) s =
   inl (KeyError "components_num")).
Proof.
  intros Hsc. split.
  - intros Hcol. apply frame_getitem_missing in Hcol.
    destruct (_get_scores_run s X df Hsc) as (lines & Hrun & _).
    destruct Hsc as (HX & Hdf & _).
    unfold attr, result in *.
    unfold KMeansClustering.special_components. py_go. reflexivity.
  - intros Hcol (k & Hk) (nm & Hnm) Hnone.
    destruct (frame_getitem_present _ _ Hcol) as (cl & Hcl).
    assert (Hm : exists m, attr s "model" = Some m)
      by (destruct Hsc as (_ & _ & m & _ & _ & _ & _ & Hm & _); eauto).
    destruct Hm as (m & Hm).
    destruct (special_components_run s X df m cl k nm Hsc Hm Hk Hnm Hcl)
      as (common & _ & Hrun).
    unfold result. now rewrite Hrun, Hnone.
Qed.

End KMeansClaims.

(** ** The claims on a concrete run *)

Section Runs.
Import Example.

(** A run of C3: [DBSCANClustering()] fitted on the four samples has no
    centers to report. *)
Lemma get_cluster_centers_or_placeholder_witness :
  result (ClusteringWorkflowBase.fit world 1%positive) dbscan_built = inr tt /\
  result ClusteringWorkflowBase.get_cluster_centers dbscan_fitted =
  inr ClusteringWorkflowBase.no_centers.
Proof.
  assert (H : result (ClusteringWorkflowBase.fit world 1%positive)
                     dbscan_built = inr tt) by (vm_compute; reflexivity).
  split; [exact H|].
  exact (proj2 (get_cluster_centers_or_placeholder world)
               s0 DBSCANClustering.defaults 1%positive H).
Defined.

(** A run of C4: [KMeansClustering(n_clusters=2)] fitted on the four
    samples. *)
Lemma get_labels_appends_result_column_witness :
  fitted_instance (kmeans_fitted 2) 1%positive samples
    (model_of (kmeans_fitted 2)) [VInt 0; VInt 1; VInt 0; VInt 1] /\
  has_column "clustering result" samples = false /\
  exists df',
    frames (run (ClusteringWorkflowBase.get_labels world) (kmeans_fitted 2))
      !! 1%positive = Some df' /\
    index df' = 4%nat /\
    columns df' = columns samples ++
                  [("clustering result", [VInt 0; VInt 1; VInt 0; VInt 1])].
Proof.
  assert (H1 : fitted_instance (kmeans_fitted 2) 1%positive samples
                 (model_of (kmeans_fitted 2))
                 [VInt 0; VInt 1; VInt 0; VInt 1])
    by (repeat split; vm_compute; reflexivity).
  assert (H2 : has_column "clustering result" samples = false)
    by reflexivity.
  split; [exact H1|split; [exact H2|]].
  destruct (get_labels_appends_result_column world _ _ _ _ _ H1 H2)
    as (df' & Hrun & Hindex & Hcols & _).
  exists df'. unfold run. rewrite Hrun. cbn [fst frames].
  rewrite lookup_insert_eq. auto.
Defined.

(** A run of C5: [MeanShiftClustering()] where [WorkflowBase.__init__]
    assigns nothing. *)
Lemma placeholder_fit_raises_witness :
  MeanShiftClustering ∈ placeholder_classes /\
  (forall k d, WorkflowBase_init world !! "model" <> Some (VEstimator k d)) /\
  result (ClusteringWorkflowBase.fit world 1%positive)
         (run (create_placeholder world MeanShiftClustering) s0) =
  inl (AttributeError "MeanShiftClustering" "model").
Proof.
  assert (H1 : MeanShiftClustering ∈ placeholder_classes)
    by apply list_elem_of_here.
  assert (H2 : forall k d,
             WorkflowBase_init world !! "model" <> Some (VEstimator k d))
    by (intros k d; cbn; discriminate).
  split; [exact H1|split; [exact H2|]].
  exact (placeholder_fit_raises world MeanShiftClustering s0 1%positive H1 H2).
Defined.

(** A run of C7: the fitted [DBSCANClustering()] of above. *)
Lemma dbscan_special_components_one_plot_witness :
  fitted_instance dbscan_fitted 1%positive samples (model_of dbscan_fitted)
    [VInt 0; VInt 0; VInt 0; VInt 0] /\
  __class__ (self dbscan_fitted) = DBSCANClustering.cls /\
  out (run (DBSCANClustering.special_components world
              {[ "components_num" := VInt 3 ]}) dbscan_fitted) =
  [print [ByValue
     (VStr "-------** dbscan_clustering_result_2d_plot **----------")];
   dbscan_result_plot (ByRef 1%positive samples)
     (ByValue (model_of dbscan_fitted)) (ByValue (VStr "DBSCAN"));
   save_fig "Plot - DBSCAN - 2D" "output/images"].
Proof.
  assert (H1 : fitted_instance dbscan_fitted 1%positive samples
                 (model_of dbscan_fitted) [VInt 0; VInt 0; VInt 0; VInt 0])
    by (repeat split; vm_compute; reflexivity).
  assert (H2 : __class__ (self dbscan_fitted) = DBSCANClustering.cls)
    by reflexivity.
  split; [exact H1|split; [exact H2|]].
  unfold run.
  rewrite (dbscan_special_components_one_plot world _ _ _ _ _
             {[ "components_num" := VInt 3 ]} H1 H2).
  vm_compute. reflexivity.
Defined.

(** A run of C8: the table at address 1 carries the labels after
    [fit(X)] and [get_labels()] on [KMeansClustering(n_clusters=2)]. *)
Lemma fit_keeps_callers_table_witness :
  attr (run (ClusteringWorkflowBase.fit world 1%positive) (kmeans_built 2)) "X"
    = Some (VFrame 1%positive) /\
  frames (kmeans_labelled 2) = {[ 1%positive := samples_labelled ]}.
Proof.
  assert (H1 : attr (kmeans_built 2) "model" =
               Some (VEstimator KMeans (kmeans_params 2)))
    by (vm_compute; reflexivity).
  assert (H2 : attr (kmeans_built 2) "naming" = Some (VStr "KMeans"))
    by (vm_compute; reflexivity).
  assert (H3 : frames (kmeans_built 2) !! 1%positive = Some samples)
    by (vm_compute; reflexivity).
  assert (H4 : sk_fit world KMeans (kmeans_params 2) samples =
               inr (fit_values KMeans (kmeans_params 2) samples))
    by reflexivity.
  assert (H5 : length (labels_ (fit_values KMeans (kmeans_params 2) samples))
               = index samples) by reflexivity.
  destruct (fit_keeps_callers_table world _ _ _ _ _ _ _ H1 H2 H3 H4 H5)
    as (_ & HX & _ & _ & Hframes).
  split; [exact HX|].
  unfold kmeans_labelled, kmeans_fitted. rewrite Hframes.
  vm_compute. reflexivity.
Defined.

(** A run of C9: a second [get_labels()] on the same instance. *)
Lemma get_labels_idempotent_witness :
  ClusteringWorkflowBase.get_labels world (kmeans_fitted 2) =
    (kmeans_labelled 2, inr tt) /\
  exists s2,
    ClusteringWorkflowBase.get_labels world (kmeans_labelled 2) = (s2, inr tt) /\
    frames s2 = frames (kmeans_labelled 2) /\
    self s2 = self (kmeans_labelled 2).
Proof.
  assert (H : ClusteringWorkflowBase.get_labels world (kmeans_fitted 2) =
              (kmeans_labelled 2, inr tt)) by (vm_compute; reflexivity).
  split; [exact H|].
  exact (get_labels_idempotent world _ _ H).
Defined.



(** A run of the amended C10: two clusters on the four samples;
    [special_components()] before [get_labels()] misses the column, and
    after it misses [components_num]. *)
Lemma kmeans_special_components_key_errors_witness :
  scores_computed world (kmeans_fitted 2) 1%positive samples /\
  result (KMeansClustering.special_components world
            {[ "components_num" := VInt 2 ]}) (kmeans_fitted 2) =
    inl (KeyError "clustering result") /\
  scores_computed world (kmeans_labelled 2) 1%positive samples_labelled /\
  result (KMeansClustering.special_components world ∅) (kmeans_labelled 2) =
    inl (KeyError "components_num").
Proof.
  assert (H1 : scores_computed world (kmeans_fitted 2) 1%positive samples).
  { split; [vm_compute; reflexivity|split; [vm_compute; reflexivity|]].
    exists (model_of (kmeans_fitted 2)), (VFloat 0),
      (VList [VInt 0; VInt 1; VInt 0; VInt 1]), (VFloat 0.5), (VFloat 0.5).
    repeat split; vm_compute; reflexivity. }
  assert (H2 : scores_computed world (kmeans_labelled 2) 1%positive
                 samples_labelled).
  { split; [vm_compute; reflexivity|split; [vm_compute; reflexivity|]].
    exists (model_of (kmeans_labelled 2)), (VFloat 0),
      (VList [VInt 0; VInt 1; VInt 0; VInt 1]), (VFloat 0.5), (VFloat 0.5).
    repeat split; vm_compute; reflexivity. }
  split; [exact H1|split; [|split; [exact H2|]]].
  - apply (proj1 (kmeans_special_components_key_errors world _ _ _
                    {[ "components_num" := VInt 2 ]} H1)).
    reflexivity.
  - apply (proj2 (kmeans_special_components_key_errors world _ _ _ ∅ H2)).
    + reflexivity.
    + exists (VInt 2). vm_compute. reflexivity.
    + exists (VStr "KMeans"). vm_compute. reflexivity.
    + reflexivity.
Defined.

(** C10 as stated fails: on [KMeansClustering(n_clusters=1)], fitted and
    labelled, [special_components()] without [components_num] raises
    ValueError in the score computation, not KeyError. *)
Lemma kmeans_single_cluster_raises_value_error :
  result (ClusteringWorkflowBase.fit world 1%positive) (kmeans_built 1)
    = inr tt /\
  result (ClusteringWorkflowBase.get_labels world) (kmeans_fitted 1)
    = inr tt /\
  (∅ : gmap string value) !! "components_num" = None /\
  result (KMeansClustering.special_components world ∅) (kmeans_labelled 1) =
    inl (ValueError
      "Number of labels is 1. Valid values are 2 to n_samples - 1 (inclusive)").
Proof. repeat split; vm_compute; reflexivity. Qed.

(** The overrides of C1 on a run: a caller's [verbose=True] and
    [random_state=0] stay on the instance and do not reach the estimator. *)
Example affinity_propagation_drops_overrides :
  let s := run (AffinityPropagationClustering.create world
                  {| AffinityPropagationClustering.damping := VFloat 0.5;
                     AffinityPropagationClustering.max_iter := VInt 200;
                     AffinityPropagationClustering.convergence_iter := VInt 15;
                     AffinityPropagationClustering.copy := VBool true;
                     AffinityPropagationClustering.preference := VInt (-50);
                     AffinityPropagationClustering.affinity :=
                       VStr "precomputed";
                     AffinityPropagationClustering.verbose := VBool true;
                     AffinityPropagationClustering.random_state := VInt 0 |})
               s0 in
  attr s "verbose" = Some (VBool true) /\
  attr s "random_state" = Some (VInt 0) /\
  getattr (model_of s) "verbose" = inr (VBool false) /\
  getattr (model_of s) "random_state" = inr VNone /\
  getattr (model_of s) "preference" = inr VNone /\
  getattr (model_of s) "affinity" = inr (VStr "euclidean").
Proof. repeat split; vm_compute; reflexivity. Qed.

End Runs.

(** * Further properties *)

(** A name that is none of an estimator's keyword arguments. *)
Ltac not_a_keyword :=
  cbn; rewrite ?not_elem_of_cons; repeat split; try done;
  apply not_elem_of_nil.

(** ** Computations that only read *)

Section ReadOnly.

Lemma read_only_bind {A B} (m : M A) (k : A -> M B) :
  read_only m -> (forall a, read_only (k a)) -> read_only (bind m k).
Proof.
  intros Hm Hk s. specialize (Hm s). unfold run in *. cbn.
  destruct (m s) as [s1 [e|a]]; cbn in *; [exact Hm|].
  specialize (Hk a s1). unfold run in Hk.
  destruct Hm as (Hself & Hframes & t & Hout).
  destruct Hk as (Hself' & Hframes' & t' & Hout').
  rewrite Hself', Hframes', Hout', Hself, Hframes, Hout.
  repeat split. exists (t ++ t'). now rewrite app_assoc.
Qed.

Lemma read_only_pure {A} (r : exn + A) : read_only (lift r).
Proof. intros s. cbn. repeat split. exists []. now rewrite app_nil_r. Qed.

Lemma read_only_ret {A} (a : A) : read_only (ret a).
Proof. apply (read_only_pure (inr a)). Qed.

Lemma read_only_raise {A} (e : exn) : read_only (@raise A e).
Proof. apply (read_only_pure (inl e)). Qed.

Lemma read_only_emit e : read_only (emit e).
Proof. intros s. cbn. eauto. Qed.

Lemma read_only_py_print vs : read_only (py_print vs).
Proof. intros s. cbn. eauto. Qed.

Lemma read_only_pass v : read_only (pass v).
Proof. intros s. cbn. repeat split. exists []. now rewrite app_nil_r. Qed.

Lemma read_only_self_attr a : read_only (self_attr a).
Proof.
  intros s. unfold run. cbn.
  destruct (__dict__ (self s) !! a); [|destruct (class_attr _ a)]; cbn;
    repeat split; exists []; now rewrite app_nil_r.
Qed.

Lemma read_only_getitem X k : read_only (getitem X k).
Proof.
  intros s. unfold run. cbn.
  destruct X; cbn; try (repeat split; exists []; now rewrite app_nil_r).
  destruct (frames s !! l); cbn; repeat split; exists [];
    now rewrite app_nil_r.
Qed.

Lemma read_only_kwargs_get kwargs k : read_only (kwargs_get kwargs k).
Proof.
  unfold kwargs_get. destruct (kwargs !! k);
    [apply read_only_ret | apply read_only_raise].
Qed.

End ReadOnly.

Ltac read_only_steps :=
  repeat first
    [ apply read_only_ret | apply read_only_raise | apply read_only_pure
    | apply read_only_emit | apply read_only_py_print | apply read_only_pass
    | apply read_only_self_attr | apply read_only_getitem
    | apply read_only_kwargs_get
    | apply read_only_bind; [|intros ?]
    | match goal with |- read_only (if ?b then _ else _) => destruct b end ].

Section Diagnostics.
Variable E : Externals.

(** X1. The three reporting methods only read: [get_cluster_centers] and
    both [special_components], for any keyword arguments and whether they
    return or raise, leave the instance and every table as they were and
    only add calls after those already made. *)
Theorem diagnostics_only_read :
  read_only ClusteringWorkflowBase.get_cluster_centers /\
  (forall kwargs, read_only (KMeansClustering.special_components E kwargs)) /\
  (forall kwargs, read_only (DBSCANClustering.special_components E kwargs)).
Proof.
  split; [|split]; intros.
  - unfold ClusteringWorkflowBase.get_cluster_centers. read_only_steps.
  - unfold KMeansClustering.special_components, KMeansClustering._get_scores,
      KMeansClustering._plot_silhouette_diagram, KMeansClustering._scatter2d,
      KMeansClustering._scatter3d, ClusteringWorkflowBase.get_cluster_centers.
    read_only_steps.
  - unfold DBSCANClustering.special_components,
      DBSCANClustering.clustering_result_plot.
    read_only_steps.
Qed.

End Diagnostics.

(** ** More on the base methods *)

Section BaseFurther.
Variable E : Externals.


Lemma fit_failure_run s X c d df e :
  attr s "model" = Some (VEstimator c d) ->
  frames s !! X = Some df ->
  sk_fit E c d df = inl e ->
  ClusteringWorkflowBase.fit E X s =
  ({| self := {| __class__ := __class__ (self s);
                 __dict__ := <["X" := VFrame X]> (__dict__ (self s)) |};
      frames := frames s; out := out s |}, inl e).
Proof.
  unfold attr. intros Hm HX Hfit.
  unfold ClusteringWorkflowBase.fit. py_go. reflexivity.
Qed.

(** X3. After a [fit] that raised on a second table, the instance holds the
    second table and the labels of the first: when the two have as many
    rows, [get_labels] returns and writes the first table's labels into the
    second. *)
Theorem failed_fit_leaves_stale_labels s X1 X2 df1 df2 c d labels e :
  fitted_instance s X1 df1 (VEstimator c d) labels ->
  frames s !! X2 = Some df2 ->
  index df2 = index df1 ->
  sk_fit E c d df2 = inl e ->
  result (ClusteringWorkflowBase.fit E X2) s = inl e /\
  result (ClusteringWorkflowBase.get_labels E)
         (run (ClusteringWorkflowBase.fit E X2) s) = inr tt /\
  frames (run (ClusteringWorkflowBase.get_labels E)
              (run (ClusteringWorkflowBase.fit E X2) s)) =
    <[X2 := {| index := index df2;
               columns := set_column "clustering result" labels
                                     (columns df2) |}]> (frames s).
Proof.
  intros (Hm & Hl & Hlen & _ & _ & Hnm) HX2 Hrows Hfit.
  unfold result, run.
  rewrite (fit_failure_run s X2 c d df2 e Hm HX2 Hfit). cbn [fst snd].
  split; [done|].
  set (s1 := {| self := _ |}).
  assert (H1 : attr s1 "model" = Some (VEstimator c d)).
  { unfold attr in *. cbn -[insert lookup]. now rewrite lookup_insert_ne. }
  assert (H2 : attr s1 "X" = Some (VFrame X2)).
  { unfold attr. cbn -[insert lookup]. now rewrite lookup_insert_eq. }
  assert (H3 : attr s1 "naming" = Some (VStr (name (__class__ (self s))))).
  { unfold attr in *. cbn -[insert lookup]. now rewrite lookup_insert_ne. }
  rewrite (get_labels_run E s1 _ (VList labels) X2 df2
             {| index := index df2;
                columns := set_column "clustering result" labels
                                      (columns df2) |}
             (VStr (name (__class__ (self s)))) H1 Hl H2 HX2);
    [done | apply frame_setitem_array; congruence | exact H3].
Qed.

(** [get_labels] in every case: where it stops and what it has done by
    then. *)
Lemma get_labels_cases s :
  self (run (ClusteringWorkflowBase.get_labels E) s) = self s /\
  ((exists e, result (ClusteringWorkflowBase.get_labels E) s = inl e /\
      (frames (run (ClusteringWorkflowBase.get_labels E) s) = frames s \/
       exists X df',
         attr s "X" = Some (VFrame X) /\
         frames (run (ClusteringWorkflowBase.get_labels E) s) =
           <[X := df']> (frames s)) /\
      exists t, out (run (ClusteringWorkflowBase.get_labels E) s) = out s ++ t
                /\ save_data_calls t = []) \/
   (exists X df',
      result (ClusteringWorkflowBase.get_labels E) s = inr tt /\
      attr s "X" = Some (VFrame X) /\
      frames (run (ClusteringWorkflowBase.get_labels E) s) =
        <[X := df']> (frames s))).
Proof.
  unfold attr, result, run, ClusteringWorkflowBase.get_labels. py_run.
  destruct (__dict__ (self s) !! "model") as [m|] eqn:Hm; py_go.
  2: { split; [done|left]. eexists; split; [done|]. split; [now left|].
       eexists; split; done. }
  destruct (getattr m "labels_") as [e|v] eqn:Hl; py_go.
  { split; [done|left]. eexists; split; [done|]. split; [now left|].
    eexists; split; done. }
  destruct (__dict__ (self s) !! "X") as [Xv|] eqn:HX; py_go.
  2: { split; [done|left]. eexists; split; [done|]. split; [now left|].
       eexists; split; done. }
  destruct Xv as [ | | | | | | | X | ]; py_go;
    try (split; [done|left]; eexists; split; [done|]; split; [now left|];
         eexists; split; done).
  destruct (frames s !! X) as [df|] eqn:Hdf; py_go.
  2: { split; [done|left]. eexists; split; [done|]. split; [now left|].
       eexists; split; done. }
  destruct (frame_setitem df "clustering result" v) as [e|df'] eqn:Hset;
    py_go.
  { split; [done|left]. eexists; split; [done|]. split; [now left|].
    eexists; split; done. }
  destruct (__dict__ (self s) !! "naming") as [nm|] eqn:Hnm; py_go.
  - split; [done|right]. exists X, df'. done.
  - split; [done|left]. eexists; split; [done|].
    split; [right; exists X, df'; done|].
    rewrite <- !app_assoc. eexists; split; done.
Qed.

(** X4. [get_labels] never changes the instance, and of the tables it can
    only change the one [self.X] refers to. *)
Theorem get_labels_touches_only_stored_table s l :
  attr s "X" <> Some (VFrame l) ->
  self (run (ClusteringWorkflowBase.get_labels E) s) = self s /\
  frames (run (ClusteringWorkflowBase.get_labels E) s) !! l = frames s !! l.
Proof.
  intros Hl. destruct (get_labels_cases s) as (Hself & Hcases).
  split; [exact Hself|].
  destruct Hcases as [(e & _ & [-> | (X & df' & HX & ->)] & _)
                     | (X & df' & _ & HX & ->)]; try done;
    apply lookup_insert_ne; congruence.
Qed.

(** X5. A [get_labels] that raises has not called [save_data]. *)
Theorem get_labels_failure_saves_nothing s e :
  result (ClusteringWorkflowBase.get_labels E) s = inl e ->
  save_data_calls (out (run (ClusteringWorkflowBase.get_labels E) s)) =
  save_data_calls (out s).
Proof.
  intros He. destruct (get_labels_cases s) as (_ & Hcases).
  destruct Hcases as [(e' & _ & _ & t & -> & Ht) | (X & df' & Hok & _)].
  - unfold save_data_calls in *. rewrite filter_app, Ht. apply app_nil_r.
  - congruence.
Qed.

End BaseFurther.

Section BaseMore.
Variable E : Externals.
Implicit Types (cols : list (string * list value)) (col : list value)
  (c : string * list value).

Lemma overwrite_keeps_names k col cols :
  (map (fun c => if String.eqb c.1 k then (k, col) else c) cols).*1 = cols.*1.
Proof.
  induction cols as [|c cols IH]; cbn; [done|]. rewrite IH. f_equal.
  destruct (String.eqb c.1 k) eqn:Hc; [|done].
  apply String.eqb_eq in Hc. now rewrite Hc.
Qed.

Lemma overwrite_sets_label k col cols :
  Forall (fun c => c.1 = k -> c.2 = col)
         (map (fun c => if String.eqb c.1 k then (k, col) else c) cols).
Proof.
  induction cols as [|c cols IH]; cbn; constructor; [|done].
  destruct (String.eqb c.1 k) eqn:Hc; cbn; [done|].
  apply String.eqb_neq in Hc. done.
Qed.

Lemma overwrite_keeps_others k col cols c :
  c ∈ cols -> c.1 <> k ->
  c ∈ map (fun c => if String.eqb c.1 k then (k, col) else c) cols.
Proof.
  intros Hin Hne. apply list_elem_of_fmap. exists c. split; [|done].
  apply String.eqb_neq in Hne. now rewrite Hne.
Qed.

(** X6. On a fitted instance whose table already has a "clustering result"
    column, [get_labels] returns and overwrites it in place: the table keeps
    its rows and its column labels in order, every column of that label now
    holds the estimator's labels, and the other columns are as before. *)
Theorem get_labels_overwrites_existing_column s X df m labels :
  fitted_instance s X df m labels ->
  has_column "clustering result" df = true ->
  exists df',
    result (ClusteringWorkflowBase.get_labels E) s = inr tt /\
    frames (run (ClusteringWorkflowBase.get_labels E) s) !! X = Some df' /\
    index df' = index df /\
    (columns df').*1 = (columns df).*1 /\
    Forall (fun c => c.1 = "clustering result" -> c.2 = labels) (columns df') /\
    (forall c, c ∈ columns df -> c.1 <> "clustering result" ->
               c ∈ columns df').
Proof.
  intros (Hm & Hl & Hlen & HX & Hdf & Hnm) Hold.
  exists {| index := index df;
            columns := set_column "clustering result" labels (columns df) |}.
  unfold result, run.
  rewrite (get_labels_run E s m (VList labels) X df _
             (VStr (name (__class__ (self s)))) Hm Hl HX Hdf
             (frame_setitem_array _ _ _ Hlen) Hnm).
  cbn [fst snd frames index columns]. unfold set_column.
  unfold has_column in Hold. rewrite Hold.
  split; [done|]. split; [apply lookup_insert_eq|]. split; [done|].
  split; [apply overwrite_keeps_names|].
  split; [apply overwrite_sets_label|].
  intros c. apply overwrite_keeps_others.
Qed.


(** X7. [get_labels] before [fit]: on an instance fresh from any of the
    three constructors it raises AttributeError for the estimator's
    [labels_], and no table is changed. *)
Theorem get_labels_before_fit_raises
    (a : KMeansClustering.args) (b : DBSCANClustering.args)
    (ap : AffinityPropagationClustering.args) (s : state) :
  result (ClusteringWorkflowBase.get_labels E)
         (run (KMeansClustering.create E a) s)
    = inl (AttributeError "KMeans" "labels_") /\
  result (ClusteringWorkflowBase.get_labels E)
         (run (DBSCANClustering.create E b) s)
    = inl (AttributeError "DBSCAN" "labels_") /\
  result (ClusteringWorkflowBase.get_labels E)
         (run (AffinityPropagationClustering.create E ap) s)
    = inl (AttributeError "AffinityPropagation" "labels_") /\
  frames (run (ClusteringWorkflowBase.get_labels E)
              (run (KMeansClustering.create E a) s)) = frames s /\
  frames (run (ClusteringWorkflowBase.get_labels E)
              (run (DBSCANClustering.create E b) s)) = frames s /\
  frames (run (ClusteringWorkflowBase.get_labels E)
              (run (AffinityPropagationClustering.create E ap) s)) = frames s.
Proof.
  unfold result, run.
  rewrite KMeansClustering_create_run, DBSCANClustering_create_run,
    AffinityPropagationClustering_create_run.
  cbn [fst]. unfold ClusteringWorkflowBase.get_labels.
  repeat split; py_run;
    rewrite not_elem_of_list_to_map_1 by not_a_keyword; py_run; reflexivity.
Qed.

End BaseMore.


Section Centers.
Variable E : Externals.

(** X8. [get_cluster_centers] before [fit]: on an instance fresh from any of
    the three constructors it returns the placeholder string, not an
    error. *)
Theorem get_cluster_centers_before_fit
    (a : KMeansClustering.args) (b : DBSCANClustering.args)
    (ap : AffinityPropagationClustering.args) (s : state) :
  result ClusteringWorkflowBase.get_cluster_centers
         (run (KMeansClustering.create E a) s) =
    inr ClusteringWorkflowBase.no_centers /\
  result ClusteringWorkflowBase.get_cluster_centers
         (run (DBSCANClustering.create E b) s) =
    inr ClusteringWorkflowBase.no_centers /\
  result ClusteringWorkflowBase.get_cluster_centers
         (run (AffinityPropagationClustering.create E ap) s) =
    inr ClusteringWorkflowBase.no_centers.
Proof.
  unfold result, run.
  rewrite KMeansClustering_create_run, DBSCANClustering_create_run,
    AffinityPropagationClustering_create_run.
  cbn [fst]. unfold ClusteringWorkflowBase.get_cluster_centers.
  repeat split; py_run; unfold getattr_default; cbn -[lookup list_to_map];
    now rewrite not_elem_of_list_to_map_1 by not_a_keyword.
Qed.

(** X9. After a [fit] that returned, [get_cluster_centers] of a k-means or
    affinity-propagation workflow returns the centers the estimator
    computed. *)
Theorem get_cluster_centers_after_fit s X c d df r :
  attr s "model" = Some (VEstimator c d) ->
  frames s !! X = Some df ->
  sk_fit E c d df = inr r ->
  c <> DBSCAN ->
  result ClusteringWorkflowBase.get_cluster_centers
         (run (ClusteringWorkflowBase.fit E X) s) = inr (cluster_centers_ r).
Proof.
  intros Hm HX Hr Hc. unfold result, run.
  rewrite (fit_run E s X c d df r Hm HX Hr). cbn [fst].
  unfold ClusteringWorkflowBase.get_cluster_centers. py_run.
  unfold getattr_default, getattr.
  rewrite (lookup_union_Some_l _ _ _ (cluster_centers_ r)); [done|].
  destruct c; [|done|]; cbn -[insert lookup];
    now rewrite ?lookup_insert_ne, ?lookup_insert_eq by done.
Qed.

(** X10. On an instance built by the inherited constructor alone, as the
    eight placeholder classes are, [get_cluster_centers] raises
    AttributeError when [WorkflowBase.__init__] leaves [model] unbound: the
    placeholder string stands in for a missing [cluster_centers_] only.  When
    [model] is bound, the string or the bound object's centers come back. *)
Theorem placeholder_get_cluster_centers c s :
  result ClusteringWorkflowBase.get_cluster_centers
         (run (create_placeholder E c) s) =
  match WorkflowBase_init E !! "model" with
  | None => inl (AttributeError (__name__ c) "model")
  | Some m => inr (getattr_default m "cluster_centers_"
                     ClusteringWorkflowBase.no_centers)
  end.
Proof.
  unfold result, run, create_placeholder,
    ClusteringWorkflowBase.get_cluster_centers.
  py_run. rewrite (right_id_L ∅ (∪)).
  destruct (WorkflowBase_init E !! "model") as [m|] eqn:Hm; py_go;
    reflexivity.
Qed.

(** X11. On such an instance, to which [WorkflowBase.__init__] assigned no
    estimator, [get_labels] raises AttributeError and changes no table. *)
Theorem placeholder_get_labels_raises c s :
  c ∈ placeholder_classes ->
  (forall k d, WorkflowBase_init E !! "model" <> Some (VEstimator k d)) ->
  result (ClusteringWorkflowBase.get_labels E)
         (run (create_placeholder E c) s) =
    inl (match WorkflowBase_init E !! "model" with
         | None => AttributeError (__name__ c) "model"
         | Some m => AttributeError (type_name m) "labels_"
         end) /\
  frames (run (ClusteringWorkflowBase.get_labels E)
              (run (create_placeholder E c) s)) = frames s.
Proof.
  intros _ Hbase. unfold result, run, create_placeholder,
    ClusteringWorkflowBase.get_labels.
  py_run. rewrite (right_id_L ∅ (∪)).
  destruct (WorkflowBase_init E !! "model") as [m|] eqn:Hm; py_go;
    [|done].
  destruct m as [ | | | | | | | | k d ]; py_go; try done.
  now destruct (Hbase k d).
Qed.

End Centers.


Section Pipeline.
Variable E : Externals.

Lemma fit_gives_fitted_instance s X c d df r :
  attr s "model" = Some (VEstimator c d) ->
  attr s "naming" = Some (VStr (name (__class__ (self s)))) ->
  frames s !! X = Some df ->
  sk_fit E c d df = inr r ->
  length (labels_ r) = index df ->
  fitted_instance (run (ClusteringWorkflowBase.fit E X) s) X df
    (VEstimator c (fitted_attrs c r ∪ d)) (labels_ r).
Proof.
  intros Hm Hnm HX Hr Hlen. unfold run.
  rewrite (fit_run E s X c d df r Hm HX Hr). cbn [fst].
  unfold fitted_instance, attr in *.
  cbn -[insert lookup union].
  unfold getattr. rewrite fitted_attrs_labels.
  repeat split; try assumption; py_run; done.
Qed.

(** X12. What [fit] establishes: on an instance as a constructor leaves it,
    a [fit] whose estimator returns one label per row returns and leaves a
    fitted instance, holding the caller's table and those labels. *)
Theorem fit_establishes_fitted_instance s X c d df r :
  attr s "model" = Some (VEstimator c d) ->
  attr s "naming" = Some (VStr (name (__class__ (self s)))) ->
  frames s !! X = Some df ->
  sk_fit E c d df = inr r ->
  length (labels_ r) = index df ->
  result (ClusteringWorkflowBase.fit E X) s = inr tt /\
  fitted_instance (run (ClusteringWorkflowBase.fit E X) s) X df
    (VEstimator c (fitted_attrs c r ∪ d)) (labels_ r).
Proof.
  intros Hm Hnm HX Hr Hlen. split.
  - unfold result. now rewrite (fit_run E s X c d df r Hm HX Hr).
  - now apply fit_gives_fitted_instance.
Qed.

Arguments KMeansClustering._get_scores : simpl never.

Lemma _get_scores_trace s X df m inertia labels ch sil :
  attr s "X" = Some (VFrame X) ->
  frames s !! X = Some df ->
  attr s "model" = Some m ->
  getattr m "inertia_" = inr inertia ->
  getattr m "labels_" = inr labels ->
  calinski_harabasz_score E (ByRef X df) labels = inr ch ->
  silhouette_score E (ByRef X df) labels = inr sil ->
  KMeansClustering._get_scores E s =
  (after s (score_lines (frames s) inertia ch sil), inr tt).
Proof.
  unfold attr, after, score_lines. intros HX Hdf Hm Hi Hl Hch Hsil.
  unfold KMeansClustering._get_scores. py_go.
  rewrite <- !app_assoc. reflexivity.
Qed.

(** The whole of [special_components], call by call, once the scores are
    computed and the labels column is there. *)
Lemma special_components_trace s X df m cl k nm :
  scores_computed E s X df ->
  attr s "model" = Some m ->
  attr s "n_clusters" = Some k ->
  attr s "naming" = Some nm ->
  frame_getitem df "clustering result" = inr cl ->
  exists inertia ch sil,
    forall kwargs,
      KMeansClustering.special_components E kwargs s =
      let common := score_lines (frames s) inertia ch sil ++
                    silhouette_calls E (frames s) X df m cl k nm in
      match kwargs !! "components_num" with
      | None => (after s common, inl (KeyError "components_num"))
      | Some c =>
          match py_gt c 3 with
          | inl e => (after s common, inl e)
          | inr true => (after s (common ++ tri_plot_calls), inr tt)
          | inr false =>
              if py_eq c 3
              then (after s (common ++ tri_plot_calls), inr tt)
              else if py_eq c 2
              then (after s (common ++
                               bi_plot_calls E (frames s) X df cl nm), inr tt)
              else (after s common, inr tt)
          end
      end.
Proof.
  intros (HX & Hdf & m0 & inertia & labels & ch & sil
          & Hm & Hi & Hl & Hch & Hsil) Hm' Hk Hnm Hcl.
  rewrite Hm' in Hm. injection Hm as <-.
  exists inertia, ch, sil. intros kwargs.
  pose proof (_get_scores_trace s X df m inertia labels ch sil
                HX Hdf Hm' Hi Hl Hch Hsil) as Hrun.
  unfold attr, after in *.
  unfold KMeansClustering.special_components,
    ClusteringWorkflowBase.get_cluster_centers,
    KMeansClustering._plot_silhouette_diagram, kwargs_get.
  py_go.
  destruct (kwargs !! "components_num") as [c|]; py_go.
  2: { rewrite <- !app_assoc. reflexivity. }
  destruct (py_gt c 3) as [e|[]]; py_go.
  - rewrite <- !app_assoc. reflexivity.
  - unfold KMeansClustering._scatter3d. py_go.
    rewrite <- !app_assoc. reflexivity.
  - destruct (py_eq c 3); py_go.
    + unfold KMeansClustering._scatter3d. py_go.
      rewrite <- !app_assoc. reflexivity.
    + destruct (py_eq c 2); py_go.
      * unfold KMeansClustering._scatter2d. py_go.
        rewrite <- !app_assoc. reflexivity.
      * rewrite <- !app_assoc. reflexivity.
Qed.

Lemma save_fig_calls_app t1 t2 :
  save_fig_calls (t1 ++ t2) = save_fig_calls t1 ++ save_fig_calls t2.
Proof. apply filter_app. Qed.

Lemma plot_calls_app t1 t2 :
  plot_calls (t1 ++ t2) = plot_calls t1 ++ plot_calls t2.
Proof. apply filter_app. Qed.

(** X13. Which figures [KMeansClustering.special_components] saves, after
    [fit] and [get_labels] and once the scores are computed: the silhouette
    diagram always, the bi-plot when [components_num] is 2, and nothing for
    the 3D scatter, which is drawn without being saved. *)
Theorem kmeans_saved_figures s X df cl kwargs n :
  labelled_instance s X df cl ->
  scores_computed E s X df ->
  kwargs !! "components_num" = Some (VInt n) ->
  save_fig_calls
    (out (run (KMeansClustering.special_components E kwargs) s)) =
  save_fig_calls (out s) ++
  [save_fig ("Silhouette Diagram - " +:+ name (__class__ (self s)))
            (MODEL_OUTPUT_IMAGE_PATH E)] ++
  (if (n =? 2)%Z
   then [save_fig ("Bi-plot - " +:+ name (__class__ (self s)))
                  (MODEL_OUTPUT_IMAGE_PATH E)]
   else []).
Proof.
  intros ((m & labels & Hm & _ & _ & _ & _ & Hnm) & (k & Hk) & Hcl) Hsc Hn.
  destruct (special_components_trace s X df m cl k _ Hsc Hm Hk Hnm Hcl)
    as (inertia & ch & sil & Hrun).
  unfold run. rewrite Hrun, Hn. cbn [py_gt py_eq].
  destruct (3 <? n)%Z eqn:Hgt; [|destruct (n =? 3)%Z eqn:H3;
                                   [|destruct (n =? 2)%Z eqn:H2]];
    cbn [fst after out]; rewrite !save_fig_calls_app;
    try (replace (n =? 2)%Z with false by lia);
    cbn; now rewrite ?app_nil_r.
Qed.

(** X14. A [components_num] that does not order against an int ([None] or a
    string) makes [special_components] raise TypeError, after the silhouette
    diagram has been drawn and saved and without any scatter call. *)
Theorem kmeans_unordered_components_num s X df cl kwargs c :
  labelled_instance s X df cl ->
  scores_computed E s X df ->
  kwargs !! "components_num" = Some c ->
  c = VNone \/ (exists str, c = VStr str) ->
  result (KMeansClustering.special_components E kwargs) s =
    inl (TypeError "'>' not supported between instances") /\
  scatter_calls
    (out (run (KMeansClustering.special_components E kwargs) s)) =
    scatter_calls (out s) /\
  save_fig_calls
    (out (run (KMeansClustering.special_components E kwargs) s)) =
    save_fig_calls (out s) ++
    [save_fig ("Silhouette Diagram - " +:+ name (__class__ (self s)))
              (MODEL_OUTPUT_IMAGE_PATH E)].
Proof.
  intros ((m & labels & Hm & _ & _ & _ & _ & Hnm) & (k & Hk) & Hcl) Hsc Hc Hty.
  destruct (special_components_trace s X df m cl k _ Hsc Hm Hk Hnm Hcl)
    as (inertia & ch & sil & Hrun).
  unfold result, run. rewrite Hrun, Hc.
  destruct Hty as [-> | (str & ->)]; cbn [py_gt fst snd after out];
    rewrite !scatter_calls_app, !save_fig_calls_app; cbn;
    now rewrite ?app_nil_r.
Qed.

(** X15. When a metric raises, [special_components] raises the same error
    having drawn and saved nothing, whatever its keyword arguments. *)
Theorem kmeans_metric_error_stops_diagnostics s X df m inertia labels e
    kwargs :
  attr s "X" = Some (VFrame X) ->
  frames s !! X = Some df ->
  attr s "model" = Some m ->
  getattr m "inertia_" = inr inertia ->
  getattr m "labels_" = inr labels ->
  calinski_harabasz_score E (ByRef X df) labels = inl e \/
  (exists ch, calinski_harabasz_score E (ByRef X df) labels = inr ch /\
              silhouette_score E (ByRef X df) labels = inl e) ->
  result (KMeansClustering.special_components E kwargs) s = inl e /\
  plot_calls (out (run (KMeansClustering.special_components E kwargs) s)) =
    plot_calls (out s) /\
  save_fig_calls
    (out (run (KMeansClustering.special_components E kwargs) s)) =
    save_fig_calls (out s).
Proof.
  unfold attr, result, run. intros HX Hdf Hm Hi Hl Hmetric.
  unfold KMeansClustering.special_components, KMeansClustering._get_scores.
  destruct Hmetric as [Hch | (ch & Hch & Hsil)]; py_go;
    rewrite !plot_calls_app, !save_fig_calls_app; cbn;
    now rewrite ?app_nil_r.
Qed.

Lemma frame_getitem_with_labels df labels :
  has_column "clustering result" df = false ->
  frame_getitem (with_labels df labels) "clustering result" =
  inr (VList labels).
Proof.
  unfold has_column, frame_getitem, with_labels. cbn [columns]. intros H.
  rewrite filter_app.
  replace (filter (fun c => String.eqb c.1 "clustering result" = true)
                  (columns df))
    with (@nil (string * list value)); [done|].
  symmetry. induction (columns df) as [|c cols IH]; [done|].
  cbn in H. apply orb_false_iff in H as [Hc Hcols].
  rewrite filter_cons_False by (rewrite Hc; discriminate). now apply IH.
Qed.

(** X16. The whole k-means pipeline: [KMeansClustering(...)], [fit(X)] on a
    table without a labels column, [get_labels()].  When the estimator
    returns one label per row, both calls return and
    [special_components] finds what it needs; the two metrics are then asked
    about the table with the labels column in it, and the scores are
    computed when they answer on that table. *)
Theorem kmeans_pipeline_meets_preconditions s a X df r ch sil :
  frames s !! X = Some df ->
  has_column "clustering result" df = false ->
  sk_fit E KMeans (list_to_map (KMeans_kwargs a)) df = inr r ->
  length (labels_ r) = index df ->
  calinski_harabasz_score E (ByRef X (with_labels df (labels_ r)))
    (VList (labels_ r)) = inr ch ->
  silhouette_score E (ByRef X (with_labels df (labels_ r)))
    (VList (labels_ r)) = inr sil ->
  result (ClusteringWorkflowBase.fit E X)
         (run (KMeansClustering.create E a) s) = inr tt /\
  result (ClusteringWorkflowBase.get_labels E)
         (run (ClusteringWorkflowBase.fit E X)
              (run (KMeansClustering.create E a) s)) = inr tt /\
  labelled_instance
    (run (ClusteringWorkflowBase.get_labels E)
         (run (ClusteringWorkflowBase.fit E X)
              (run (KMeansClustering.create E a) s)))
    X (with_labels df (labels_ r)) (VList (labels_ r)) /\
  scores_computed E
    (run (ClusteringWorkflowBase.get_labels E)
         (run (ClusteringWorkflowBase.fit E X)
              (run (KMeansClustering.create E a) s)))
    X (with_labels df (labels_ r)).
Proof.
  intros HX Hnew Hr Hlen Hch Hsil.
  assert (Hc : exists s1,
             run (KMeansClustering.create E a) s = s1 /\
             frames s1 = frames s /\
             attr s1 "model" =
               Some (VEstimator KMeans (list_to_map (KMeans_kwargs a))) /\
             attr s1 "naming" = Some (VStr (name (__class__ (self s1)))) /\
             attr s1 "n_clusters" = Some (KMeansClustering.n_clusters a)).
  { eexists. split; [reflexivity|]. unfold run, attr.
    rewrite KMeansClustering_create_run. cbn [fst].
    repeat split; now py_run. }
  destruct Hc as (s1 & -> & Hf1 & Hm1 & Hn1 & Hk1).
  rewrite <- Hf1 in HX.
  pose proof (fit_gives_fitted_instance s1 X _ _ df r Hm1 Hn1 HX Hr Hlen)
    as Hfitted.
  split; [unfold result; now rewrite (fit_run E s1 X _ _ df r Hm1 HX Hr)|].
  assert (Hk2 : attr (run (ClusteringWorkflowBase.fit E X) s1) "n_clusters" =
                Some (KMeansClustering.n_clusters a)).
  { unfold run. rewrite (fit_run E s1 X _ _ df r Hm1 HX Hr).
    unfold attr in *. cbn -[insert lookup].
    now rewrite !lookup_insert_ne by done. }
  set (s2 := run (ClusteringWorkflowBase.fit E X) s1) in *.
  destruct Hfitted as (Hm2 & Hl2 & _ & HX2 & Hdf2 & Hn2).
  assert (Hset : frame_setitem df "clustering result" (VList (labels_ r)) =
                 inr (with_labels df (labels_ r))).
  { rewrite frame_setitem_array by done. unfold with_labels.
    now rewrite set_column_fresh. }
  unfold result, run.
  rewrite (get_labels_run E s2 _ (VList (labels_ r)) X df _ _
             Hm2 Hl2 HX2 Hdf2 Hset Hn2).
  cbn [fst snd]. split; [done|].
  assert (Hi : getattr (VEstimator KMeans
                          (fitted_attrs KMeans r ∪
                           list_to_map (KMeans_kwargs a))) "inertia_" =
               inr (inertia_ r)).
  { unfold getattr. rewrite (lookup_union_Some_l _ _ _ (inertia_ r)); [done|].
    cbn -[insert lookup].
    now rewrite !lookup_insert_ne, lookup_insert_eq by done. }
  assert (Hlabelled : frames
            {| self := self s2; frames := <[X := with_labels df (labels_ r)]>
                                            (frames s2);
               out := out s2 ++
                 [print [ByValue (VStr "-----* Clustering Labels *-----")];
                  print [ByRef X (with_labels df (labels_ r))];
                  save_data (ByRef X (with_labels df (labels_ r)))
                    (py_str E (VStr (name (__class__ (self s2)))))
                    (DATASET_OUTPUT_PATH E)] |} !! X =
          Some (with_labels df (labels_ r)))
    by apply lookup_insert_eq.
  split.
  - split; [|split].
    + exists (VEstimator KMeans
                (fitted_attrs KMeans r ∪ list_to_map (KMeans_kwargs a))),
        (labels_ r).
      unfold fitted_instance, attr in *. cbn [self frames] in *.
      repeat split; assumption.
    + exists (KMeansClustering.n_clusters a). exact Hk2.
    + now apply frame_getitem_with_labels.
  - unfold scores_computed, attr in *. cbn [self frames] in *.
    split; [assumption|split; [assumption|]].
    exists (VEstimator KMeans
              (fitted_attrs KMeans r ∪ list_to_map (KMeans_kwargs a))),
      (inertia_ r), (VList (labels_ r)), ch, sil.
    repeat split; assumption.
Qed.

(** X17. [special_components] before [fit]: on an instance fresh from
    [KMeansClustering(...)] it raises AttributeError for the estimator's
    [inertia_] right after the banner, whatever its keyword arguments. *)
Theorem kmeans_special_components_before_fit a kwargs s :
  KMeansClustering.special_components E kwargs
    (run (KMeansClustering.create E a) s) =
  (after (run (KMeansClustering.create E a) s)
         [print [ByValue (VStr "-----* KMeans Scores *-----")]],
   inl (AttributeError "KMeans" "inertia_")).
Proof.
  unfold run. rewrite KMeansClustering_create_run. cbn [fst].
  unfold KMeansClustering.special_components, KMeansClustering._get_scores,
    after.
  py_run. rewrite not_elem_of_list_to_map_1 by not_a_keyword.
  py_run. reflexivity.
Qed.


End Pipeline.

(** ** The further properties on a concrete run *)

Section FurtherRuns.
Import Example.


Lemma failed_fit_leaves_stale_labels_witness :
  fitted_instance Scenario.fitted_on_samples 1%positive samples
    (VEstimator KMeans
       (Scenario.dict_of (model_of Scenario.fitted_on_samples)))
    [VInt 0; VInt 1; VInt 0; VInt 1] /\
  frames (run (ClusteringWorkflowBase.get_labels Scenario.world)
              Scenario.after_failed_fit) !! 2%positive =
    Some {| index := 4;
            columns := [("clustering result",
                         [VInt 0; VInt 1; VInt 0; VInt 1])] |}.
Proof.
  assert (H1 : fitted_instance Scenario.fitted_on_samples 1%positive samples
                 (VEstimator KMeans
                    (Scenario.dict_of (model_of Scenario.fitted_on_samples)))
                 [VInt 0; VInt 1; VInt 0; VInt 1])
    by (repeat split; vm_compute; reflexivity).
  assert (H2 : frames Scenario.fitted_on_samples !! 2%positive =
               Some Scenario.no_features) by (vm_compute; reflexivity).
  assert (H3 : index Scenario.no_features = index samples) by reflexivity.
  assert (H4 : sk_fit Scenario.world KMeans
                 (Scenario.dict_of (model_of Scenario.fitted_on_samples))
                 Scenario.no_features =
               inl (ValueError
                 "Found array with 0 feature(s) while a minimum of 1 is required."))
    by reflexivity.
  destruct (failed_fit_leaves_stale_labels Scenario.world _ _ _ _ _ _ _ _ _
              H1 H2 H3 H4) as (_ & _ & Hframes).
  split; [exact H1|].
  unfold Scenario.after_failed_fit. rewrite Hframes.
  now rewrite lookup_insert_eq.
Defined.

Lemma get_labels_touches_only_stored_table_witness :
  attr Scenario.fitted_on_samples "X" <> Some (VFrame 2%positive) /\
  frames (run (ClusteringWorkflowBase.get_labels Scenario.world)
              Scenario.fitted_on_samples) !! 2%positive =
    Some Scenario.no_features.
Proof.
  assert (H1 : attr Scenario.fitted_on_samples "X" <> Some (VFrame 2%positive))
    by (vm_compute; discriminate).
  split; [exact H1|].
  etransitivity;
    [exact (proj2 (get_labels_touches_only_stored_table Scenario.world
                     _ _ H1))|].
  vm_compute. reflexivity.
Defined.

Lemma get_labels_failure_saves_nothing_witness :
  result (ClusteringWorkflowBase.get_labels world) (kmeans_built 2) =
    inl (AttributeError "KMeans" "labels_") /\
  save_data_calls
    (out (run (ClusteringWorkflowBase.get_labels world) (kmeans_built 2))) = [].
Proof.
  assert (H1 : result (ClusteringWorkflowBase.get_labels world)
                      (kmeans_built 2) =
               inl (AttributeError "KMeans" "labels_"))
    by (vm_compute; reflexivity).
  split; [exact H1|].
  now rewrite (get_labels_failure_saves_nothing world _ _ H1).
Defined.

Lemma get_labels_overwrites_existing_column_witness :
  fitted_instance (kmeans_labelled 2) 1%positive samples_labelled
    (model_of (kmeans_labelled 2)) [VInt 0; VInt 1; VInt 0; VInt 1] /\
  has_column "clustering result" samples_labelled = true /\
  exists df',
    frames (run (ClusteringWorkflowBase.get_labels world) (kmeans_labelled 2))
      !! 1%positive = Some df' /\
    (columns df').*1 = ["SiO2"; "MgO"; "clustering result"].
Proof.
  assert (H1 : fitted_instance (kmeans_labelled 2) 1%positive samples_labelled
                 (model_of (kmeans_labelled 2))
                 [VInt 0; VInt 1; VInt 0; VInt 1])
    by (repeat split; vm_compute; reflexivity).
  assert (H2 : has_column "clustering result" samples_labelled = true)
    by reflexivity.
  split; [exact H1|split; [exact H2|]].
  destruct (get_labels_overwrites_existing_column world _ _ _ _ _ H1 H2)
    as (df' & _ & Hdf' & _ & Hnames & _).
  exists df'. split; [exact Hdf'|exact Hnames].
Defined.

Lemma get_cluster_centers_after_fit_witness :
  result ClusteringWorkflowBase.get_cluster_centers (kmeans_fitted 2) =
  inr (VList []).
Proof.
  assert (H1 : attr (kmeans_built 2) "model" =
               Some (VEstimator KMeans (kmeans_params 2)))
    by (vm_compute; reflexivity).
  assert (H2 : frames (kmeans_built 2) !! 1%positive = Some samples)
    by (vm_compute; reflexivity).
  assert (H3 : sk_fit world KMeans (kmeans_params 2) samples =
               inr (fit_values KMeans (kmeans_params 2) samples))
    by reflexivity.
  assert (H4 : KMeans <> DBSCAN) by discriminate.
  exact (get_cluster_centers_after_fit world _ _ _ _ _ _ H1 H2 H3 H4).
Defined.

Lemma placeholder_get_labels_raises_witness :
  SpectralClustering ∈ placeholder_classes /\
  result (ClusteringWorkflowBase.get_labels world)
         (run (create_placeholder world SpectralClustering) s0) =
    inl (AttributeError "SpectralClustering" "model").
Proof.
  assert (H1 : SpectralClustering ∈ placeholder_classes)
    by (apply list_elem_of_further, list_elem_of_here).
  assert (H2 : forall k d,
             WorkflowBase_init world !! "model" <> Some (VEstimator k d))
    by (intros k d; cbn; discriminate).
  split; [exact H1|].
  exact (proj1 (placeholder_get_labels_raises world SpectralClustering s0
                  H1 H2)).
Defined.

Lemma fit_establishes_fitted_instance_witness :
  fitted_instance (kmeans_fitted 2) 1%positive samples
    (VEstimator KMeans
       (fitted_attrs KMeans (fit_values KMeans (kmeans_params 2) samples)
        ∪ kmeans_params 2))
    [VInt 0; VInt 1; VInt 0; VInt 1].
Proof.
  assert (H1 : attr (kmeans_built 2) "model" =
               Some (VEstimator KMeans (kmeans_params 2)))
    by (vm_compute; reflexivity).
  assert (H2 : attr (kmeans_built 2) "naming" =
               Some (VStr (name (__class__ (self (kmeans_built 2))))))
    by (vm_compute; reflexivity).
  assert (H3 : frames (kmeans_built 2) !! 1%positive = Some samples)
    by (vm_compute; reflexivity).
  assert (H4 : sk_fit world KMeans (kmeans_params 2) samples =
               inr (fit_values KMeans (kmeans_params 2) samples))
    by reflexivity.
  assert (H5 : length (labels_ (fit_values KMeans (kmeans_params 2) samples))
               = index samples) by reflexivity.
  exact (proj2 (fit_establishes_fitted_instance world _ _ _ _ _ _
                  H1 H2 H3 H4 H5)).
Defined.

(** The fitted and labelled two-cluster run meets what the score
    computation needs. *)
Lemma two_clusters_labelled :
  labelled_instance (kmeans_labelled 2) 1%positive samples_labelled
    (VList [VInt 0; VInt 1; VInt 0; VInt 1]).
Proof.
  split; [|split].
  - exists (model_of (kmeans_labelled 2)), [VInt 0; VInt 1; VInt 0; VInt 1].
    repeat split; vm_compute; reflexivity.
  - exists (VInt 2). vm_compute. reflexivity.
  - reflexivity.
Defined.

Lemma two_clusters_scored :
  scores_computed world (kmeans_labelled 2) 1%positive samples_labelled.
Proof.
  split; [vm_compute; reflexivity|split; [vm_compute; reflexivity|]].
  exists (model_of (kmeans_labelled 2)), (VFloat 0),
    (VList [VInt 0; VInt 1; VInt 0; VInt 1]), (VFloat 0.5), (VFloat 0.5).
  repeat split; vm_compute; reflexivity.
Defined.

Lemma kmeans_saved_figures_witness :
  save_fig_calls
    (out (run (KMeansClustering.special_components world
                 {[ "components_num" := VInt 3 ]}) (kmeans_labelled 2))) =
  [save_fig "Silhouette Diagram - KMeans" "output/images"].
Proof.
  assert (H : ({[ "components_num" := VInt 3 ]} : gmap string value)
              !! "components_num" = Some (VInt 3)) by reflexivity.
  rewrite (kmeans_saved_figures world _ _ _ _ _ 3
             two_clusters_labelled two_clusters_scored H).
  reflexivity.
Defined.

Lemma kmeans_unordered_components_num_witness :
  result (KMeansClustering.special_components world
            {[ "components_num" := VNone ]}) (kmeans_labelled 2) =
    inl (TypeError "'>' not supported between instances") /\
  scatter_calls
    (out (run (KMeansClustering.special_components world
                 {[ "components_num" := VNone ]}) (kmeans_labelled 2))) = [].
Proof.
  assert (H : ({[ "components_num" := VNone ]} : gmap string value)
              !! "components_num" = Some VNone) by reflexivity.
  destruct (kmeans_unordered_components_num world _ _ _ _ _ VNone
              two_clusters_labelled two_clusters_scored H (or_introl eq_refl))
    as (Hres & Hcalls & _).
  split; [exact Hres|]. rewrite Hcalls. reflexivity.
Defined.

Lemma kmeans_metric_error_stops_diagnostics_witness :
  plot_calls
    (out (run (KMeansClustering.special_components world
                 {[ "components_num" := VInt 2 ]}) (kmeans_labelled 1))) = [] /\
  save_fig_calls
    (out (run (KMeansClustering.special_components world
                 {[ "components_num" := VInt 2 ]}) (kmeans_labelled 1))) = [].
Proof.
  assert (H1 : attr (kmeans_labelled 1) "X" = Some (VFrame 1%positive))
    by (vm_compute; reflexivity).
  assert (H2 : frames (kmeans_labelled 1) !! 1%positive =
               Some (with_labels samples [VInt 0; VInt 0; VInt 0; VInt 0]))
    by (vm_compute; reflexivity).
  assert (H3 : attr (kmeans_labelled 1) "model" =
               Some (model_of (kmeans_labelled 1)))
    by (vm_compute; reflexivity).
  assert (H4 : getattr (model_of (kmeans_labelled 1)) "inertia_" =
               inr (VFloat 0)) by (vm_compute; reflexivity).
  assert (H5 : getattr (model_of (kmeans_labelled 1)) "labels_" =
               inr (VList [VInt 0; VInt 0; VInt 0; VInt 0]))
    by (vm_compute; reflexivity).
  assert (H6 : calinski_harabasz_score world
                 (ByRef 1%positive
                    (with_labels samples [VInt 0; VInt 0; VInt 0; VInt 0]))
                 (VList [VInt 0; VInt 0; VInt 0; VInt 0]) =
               inl (ValueError
      "Number of labels is 1. Valid values are 2 to n_samples - 1 (inclusive)"))
    by (vm_compute; reflexivity).
  destruct (kmeans_metric_error_stops_diagnostics world _ _ _ _ _ _ _
              {[ "components_num" := VInt 2 ]} H1 H2 H3 H4 H5 (or_introl H6))
    as (_ & Hplots & Hfigs).
  rewrite Hplots, Hfigs. split; reflexivity.
Defined.

Lemma kmeans_pipeline_meets_preconditions_witness :
  labelled_instance (kmeans_labelled 2) 1%positive
    (with_labels samples [VInt 0; VInt 1; VInt 0; VInt 1])
    (VList [VInt 0; VInt 1; VInt 0; VInt 1]) /\
  scores_computed world (kmeans_labelled 2) 1%positive
    (with_labels samples [VInt 0; VInt 1; VInt 0; VInt 1]).
Proof.
  assert (H1 : frames s0 !! 1%positive = Some samples) by reflexivity.
  assert (H2 : has_column "clustering result" samples = false)
    by reflexivity.
  assert (H3 : sk_fit world KMeans (list_to_map (KMeans_kwargs (kmeans_args 2)))
                 samples =
               inr (fit_values KMeans (kmeans_params 2) samples))
    by reflexivity.
  assert (H4 : length (labels_ (fit_values KMeans (kmeans_params 2) samples))
               = index samples) by reflexivity.
  assert (H5 : calinski_harabasz_score world
                 (ByRef 1%positive
                    (with_labels samples
                       (labels_ (fit_values KMeans (kmeans_params 2) samples))))
                 (VList (labels_ (fit_values KMeans (kmeans_params 2) samples)))
               = inr (VFloat 0.5)) by (vm_compute; reflexivity).
  assert (H6 : silhouette_score world
                 (ByRef 1%positive
                    (with_labels samples
                       (labels_ (fit_values KMeans (kmeans_params 2) samples))))
                 (VList (labels_ (fit_values KMeans (kmeans_params 2) samples)))
               = inr (VFloat 0.5)) by (vm_compute; reflexivity).
  destruct (kmeans_pipeline_meets_preconditions world s0 (kmeans_args 2)
              1%positive samples _ _ _ H1 H2 H3 H4 H5 H6)
    as (_ & _ & Hlab & Hsc).
  split; [exact Hlab|exact Hsc].
Defined.


End FurtherRuns.
